(** * Bioscope LinkedIn auto-poster

    A shallow embedding of [post_to_linkedin.py] and [config.py].

    The script is a linear orchestration of calls to external services.
    It is modelled as a computation over an explicit environment:
    - [Config] holds the values [config.py] reads from the process
      environment, [World] the answers of the file system, of the
      language-model service and of the HTTP endpoints;
    - every log line and every outbound call is recorded, in order, in a
      trace of [event]s; the answer to a call may depend on the trace so
      far, so a remote service may answer the same request differently
      at different moments;
    - Python exceptions, [sys.exit] and the early [return]s of [main] are
      results of the computation ([res]).

    Functions of the interpreter and of third-party libraries whose text
    is not part of the repository ([repr], [json.dumps],
    [date.fromisoformat], the wording of interpreter errors, path joining)
    are fields of [Runtime]; everything proved holds for every runtime. *)

From Stdlib Require Import ZArith List String Ascii DecimalString Lia Bool.
From Stdlib Require Import Strings.Byte.
From ExtLib Require Import Structures.Monad.
Import ListNotations.
Import MonadNotation.

Open Scope string_scope.
Open Scope Z_scope.
Open Scope monad_scope.

Set Warnings "-register-all".

(** ** Values *)

(** What [json.load] and [response.json()] return.  A float is kept as
    the text Python prints for it; a dict keeps its insertion order. *)
Inductive json : Type :=
| JNull
| JBool (b : bool)
| JInt (z : Z)
| JFloat (repr : string)
| JStr (s : string)
| JList (l : list json)
| JDict (d : list (string * json)).

Fixpoint dict_lookup (k : string) (d : list (string * json)) : option json :=
  match d with
  | [] => None
  | (k', v) :: d' => if String.eqb k' k then Some v else dict_lookup k d'
  end.

(** [key in d] for a dict literal such as [POSTING_DAYS]. *)
Fixpoint dict_mem {A} (k : string) (d : list (string * A)) : bool :=
  match d with
  | [] => false
  | (k', _) :: d' => String.eqb k' k || dict_mem k d'
  end.

(** Python truthiness, as tested by [if not x]. *)
Definition py_truthy (v : json) : bool :=
  match v with
  | JNull => false
  | JBool b => b
  | JInt z => negb (z =? 0)
  | JFloat r => negb (String.eqb r "0.0" || String.eqb r "-0.0")
  | JStr s => negb (String.eqb s EmptyString)
  | JList l => match l with [] => false | _ => true end
  | JDict d => match d with [] => false | _ => true end
  end.

(** Truthiness of a value read with [os.environ.get]: [None] and the
    empty string are false. *)
Definition env_truthy (v : option string) : bool :=
  match v with
  | None => false
  | Some s => negb (String.eqb s EmptyString)
  end.

Definition py_type_name (v : json) : string :=
  match v with
  | JNull => "NoneType"
  | JBool _ => "bool"
  | JInt _ => "int"
  | JFloat _ => "float"
  | JStr _ => "str"
  | JList _ => "list"
  | JDict _ => "dict"
  end.

(** [str] of an integer. *)
Definition str_Z (z : Z) : string := NilZero.string_of_int (Z.to_int z).

(** ** Dates ([datetime.date]) *)

Record date := mkdate { year : Z; month : Z; day : Z }.

Fixpoint zeros (n : nat) : string :=
  match n with
  | O => EmptyString
  | S n' => String "0" (zeros n')
  end.

(** ["%0<width>d"] for a number that is not negative. *)
Definition zfill (width : nat) (z : Z) : string :=
  let s := str_Z z in
  zeros (width - String.length s) ++ s.

(** [date.isoformat()], also [str(date)]: ["%04d-%02d-%02d"]. *)
Definition isoformat (d : date) : string :=
  zfill 4 (year d) ++ "-" ++ zfill 2 (month d) ++ "-" ++ zfill 2 (day d).

Definition is_leap (y : Z) : bool :=
  (y mod 4 =? 0) && (negb (y mod 100 =? 0) || (y mod 400 =? 0)).

Definition days_before_year (y : Z) : Z :=
  let y1 := y - 1 in
  y1 * 365 + y1 / 4 - y1 / 100 + y1 / 400.

Definition days_before_month (y m : Z) : Z :=
  nth (Z.to_nat m) [0; 0; 31; 59; 90; 120; 151; 181; 212; 243; 273; 304; 334] 0
  + (if (2 <? m) && is_leap y then 1 else 0).

(** [date.toordinal()]: 1 is January 1 of year 1. *)
Definition toordinal (d : date) : Z :=
  days_before_year (year d) + days_before_month (year d) (month d) + day d.

(** [date.weekday()]: Monday is 0. *)
Definition weekday (d : date) : Z := (toordinal d + 6) mod 7.

Definition lower_ascii (c : ascii) : ascii :=
  let n := nat_of_ascii c in
  if ((65 <=? n) && (n <=? 90))%nat then ascii_of_nat (n + 32) else c.

Fixpoint lower (s : string) : string :=
  match s with
  | EmptyString => EmptyString
  | String c s' => String (lower_ascii c) (lower s')
  end.

(** [strftime("%A")]; the script never sets a locale, so the names are
    those of the C locale. *)
Definition strftime_A (d : date) : string :=
  nth (Z.to_nat (weekday d))
      ["Monday"; "Tuesday"; "Wednesday"; "Thursday"; "Friday"; "Saturday"; "Sunday"]
      EmptyString.

(** ** Exceptions *)

(** An error raised inside a library ([requests], [anthropic], [json],
    [open], [datetime]): its class, derived from [Exception], and its
    text. *)
Record lib_error := { err_class : string; err_msg : string }.

Inductive exn : Type :=
| Exception (msg : string)            (* [raise Exception(msg)] of the script *)
| SystemExit (code : Z)               (* [sys.exit(code)] *)
| KeyError (key : string)             (* [d[key]], key missing *)
| IndexError                          (* [l[0]] on an empty list *)
| AttributeError (type attr : string) (* [v.attr], no such attribute *)
| TypeError (op type : string)        (* operator applied to a value of the wrong type *)
| LibraryError (err : lib_error).

(** [except Exception] catches everything but [SystemExit]. *)
Definition is_Exception (e : exn) : bool :=
  match e with
  | SystemExit _ => false
  | _ => true
  end.

(** ** The interpreter and the libraries *)

Record Runtime := {
  rt_repr_str : string -> string;          (* [repr] of a str *)
  rt_json_dumps : json -> string;          (* [json.dumps(v, indent=2)] *)
  rt_fromisoformat : string -> lib_error + date; (* [date.fromisoformat] *)
  rt_exn_text : exn -> string;             (* [str(e)] for an error of the interpreter *)
  rt_path_join : string -> string -> string; (* [str(Path(dir) / name)] *)
  rt_len : string -> Z                     (* [len] of a str *)
}.

Section Formatting.

Variable rt : Runtime.

(** [repr(v)]. *)
Fixpoint py_repr (v : json) : string :=
  match v with
  | JNull => "None"
  | JBool true => "True"
  | JBool false => "False"
  | JInt z => str_Z z
  | JFloat r => r
  | JStr s => rt_repr_str rt s
  | JList l => "[" ++ String.concat ", " (map py_repr l) ++ "]"
  | JDict d =>
      "{" ++ String.concat ", "
               (map (fun kv => let '(k, x) := kv in
                               rt_repr_str rt k ++ ": " ++ py_repr x) d)
          ++ "}"
  end.

(** [str(v)], what an f-string puts for [{v}]. *)
Definition py_str (v : json) : string :=
  match v with
  | JStr s => s
  | _ => py_repr v
  end.

(** [{v}] for a value of [config] read from the environment. *)
Definition env_str (v : option string) : string :=
  match v with
  | Some s => s
  | None => "None"
  end.

(** [str(e)]. *)
Definition exn_str (e : exn) : string :=
  match e with
  | Exception msg => msg
  | LibraryError err => err_msg err
  | SystemExit code => str_Z code
  | _ => rt_exn_text rt e
  end.

End Formatting.

(** [v[k]] for a string key. *)
Definition py_getitem (v : json) (k : string) : exn + json :=
  match v with
  | JDict d =>
      match dict_lookup k d with
      | Some x => inr x
      | None => inl (KeyError k)
      end
  | _ => inl (TypeError "getitem" (py_type_name v))
  end.

(** [v.get(k, default)]. *)
Definition py_get (v : json) (k : string) (default : json) : exn + json :=
  match v with
  | JDict d =>
      match dict_lookup k d with
      | Some x => inr x
      | None => inr default
      end
  | _ => inl (AttributeError (py_type_name v) "get")
  end.

(** [v == s] for a str [s]. *)
Definition eq_str (v : json) (s : string) : bool :=
  match v with
  | JStr s' => String.eqb s' s
  | _ => false
  end.

(** ** Requests, responses and the trace *)

Inductive method := GET | POST | PUT.

Inductive body :=
| NoBody
| JsonBody (j : json)           (* [json=...] *)
| DataBody (data : list byte).  (* [data=...] *)

(** A call of [requests.get], [requests.post] or [requests.put].  The URL
    is whatever value the script passes, a str in all cases but one. *)
Record request := {
  req_method : method;
  req_url : json;
  req_headers : list (string * string);
  req_body : body
}.

Record response := {
  status_code : Z;
  resp_text : string;            (* [response.text] *)
  resp_json : lib_error + json  (* [response.json()] *)
}.

(** A call of [client.messages.create]. *)
Record llm_request := {
  model : string;
  max_tokens : Z;
  system : string;
  messages : list (string * string)  (* role, content *)
}.

(** An element of [response.content]; only a text block has [.text]. *)
Inductive block :=
| TextBlock (block_text : string)
| OtherBlock (block_type : string).

(** The place in the script an HTTP call is made from. *)
Inductive caller :=
| UserInfo         (* [get_person_urn] *)
| RegisterUpload   (* [upload_image_to_linkedin], step 1 *)
| UploadBinary     (* [upload_image_to_linkedin], step 2 *)
| CreatePost       (* [create_linkedin_post] *)
| Slack.           (* [send_slack_notification] *)

Inductive level := INFO | WARNING | ERROR.

Inductive event :=
| Log (lvl : level) (msg : string)
| Http (by_ : caller) (req : request) (reply : lib_error + response)
| Llm (api_key : option string) (req : llm_request)
      (reply : lib_error + list block).

Definition trace := list event.

Definition is_network_call (ev : event) : bool :=
  match ev with
  | Log _ _ => false
  | Http _ _ _ => true
  | Llm _ _ _ => true
  end.

Definition is_call_by (c : caller) (ev : event) : bool :=
  match ev, c with
  | Http UserInfo _ _, UserInfo => true
  | Http RegisterUpload _ _, RegisterUpload => true
  | Http UploadBinary _ _, UploadBinary => true
  | Http CreatePost _ _, CreatePost => true
  | Http Slack _ _, Slack => true
  | _, _ => false
  end.

(** ** Configuration ([config.py]) *)

Record Config := {
  ANTHROPIC_API_KEY : option string;     (* [os.environ.get(...)] *)
  LINKEDIN_ACCESS_TOKEN : option string;
  SLACK_WEBHOOK_URL : option string;
  IMAGES_DIR : string                    (* [BASE_DIR / "content" / "images"] *)
}.

Definition LINKEDIN_API_BASE : string := "https://api.linkedin.com/v2".
Definition LINKEDIN_UPLOAD_URL : string := LINKEDIN_API_BASE ++ "/assets?action=registerUpload".
Definition LINKEDIN_POSTS_URL : string := LINKEDIN_API_BASE ++ "/posts".
Definition CLAUDE_MODEL : string := "claude-sonnet-4-20250514".
Definition POSTING_DAYS : list (string * string) :=
  [("sunday", "gene"); ("tuesday", "intervention"); ("thursday", "topic")].
Definition MAX_POST_LENGTH : Z := 3000.

(** ** The environment of a run *)

Record World := {
  w_today : date;                                    (* [date.today()] *)
  w_calendar : lib_error + list json;                (* [load_calendar()] *)
  w_system_prompt : lib_error + string;              (* [load_system_prompt()] *)
  w_exists : string -> bool;                         (* [Path.exists()] *)
  w_read_bytes : string -> lib_error + list byte;    (* [open(path, 'rb').read()] *)
  w_messages_create :
    trace -> option string -> llm_request -> lib_error + list block;
  w_requests : trace -> request -> lib_error + response
}.

(** ** Computations *)

Inductive res (A : Type) : Type :=
| Ok (a : A)       (* falls through to the next statement *)
| Return           (* [return] out of [main] *)
| Raise (e : exn). (* an exception propagates *)

Arguments Ok {A} a.
Arguments Return {A}.
Arguments Raise {A} e.

(** A computation receives the trace so far and gives its result and
    the events it appends. *)
Definition M (A : Type) : Type := trace -> res A * trace.

Definition retM {A} (a : A) : M A := fun _ => (Ok a, []).

Definition bindM {A B} (m : M A) (k : A -> M B) : M B :=
  fun h =>
    let (r, ev) := m h in
    match r with
    | Ok a => let (r', ev') := k a (h ++ ev)%list in (r', (ev ++ ev')%list)
    | Return => (Return, ev)
    | Raise e => (Raise e, ev)
    end.

#[export] Instance Monad_M : Monad M := {| ret := @retM; bind := @bindM |}.

Definition raise {A} (e : exn) : M A := fun _ => (Raise e, []).

Definition py_return {A} : M A := fun _ => (Return, []).

Definition sys_exit {A} (code : Z) : M A := raise (SystemExit code).

(** The value of an expression that may raise. *)
Definition lift {A} (x : exn + A) : M A :=
  match x with
  | inl e => raise e
  | inr a => ret a
  end.

(** The value of a library call that may raise. *)
Definition lift_lib {A} (x : lib_error + A) : M A :=
  match x with
  | inl err => raise (LibraryError err)
  | inr a => ret a
  end.

Definition log (lvl : level) (msg : string) : M unit :=
  fun _ => (Ok tt, [Log lvl msg]).

(** [try: body / except Exception as e: handler e]. *)
Definition try_except {A} (body : M A) (handler : exn -> M A) : M A :=
  fun h =>
    let (r, ev) := body h in
    match r with
    | Raise e =>
        if is_Exception e
        then let (r', ev') := handler e (h ++ ev)%list in (r', (ev ++ ev')%list)
        else (Raise e, ev)
    | _ => (r, ev)
    end.

(** The exit status of the process when [main()] ends with [r]. *)
Definition exit_status {A} (r : res A) : Z :=
  match r with
  | Ok _ => 0
  | Return => 0
  | Raise (SystemExit code) => code
  | Raise _ => 1
  end.

(** [v[k1][k2]...], evaluated from the left. *)
Fixpoint py_getitems (v : json) (ks : list string) : exn + json :=
  match ks with
  | [] => inr v
  | k :: ks' =>
      match py_getitem v k with
      | inl e => inl e
      | inr x => py_getitems x ks'
      end
  end.

(** [response.content[0].text]. *)
Definition first_text (content : list block) : exn + string :=
  match content with
  | [] => inl IndexError
  | TextBlock s :: _ => inr s
  | OtherBlock ty :: _ => inl (AttributeError ty "text")
  end.

Definition nl : string := String (ascii_of_nat 10) EmptyString.

(** [s * n]. *)
Fixpoint str_mul (s : string) (n : nat) : string :=
  match n with
  | O => EmptyString
  | S n' => s ++ str_mul s n'
  end.

(** Command-line arguments, as [parser.parse_args()] returns them. *)
Record Args := {
  dry_run : bool;
  arg_date : option string;  (* [args.date] *)
  force : bool
}.

(** ** The script ([post_to_linkedin.py]) *)

Section Script.

Variable rt : Runtime.
Variable cfg : Config.
Variable w : World.

Definition requests (c : caller) (req : request) : M response :=
  fun h =>
    let reply := w_requests w h req in
    (match reply with
     | inl err => Raise (LibraryError err)
     | inr r => Ok r
     end, [Http c req reply]).

Definition messages_create (api_key : option string) (req : llm_request)
  : M (list block) :=
  fun h =>
    let reply := w_messages_create w h api_key req in
    (match reply with
     | inl err => Raise (LibraryError err)
     | inr r => Ok r
     end, [Llm api_key req reply]).

Definition load_calendar : M (list json) := lift_lib (w_calendar w).

(** The loop of [get_todays_post]. *)
Fixpoint find_post (target_str : string) (calendar : list json)
  : exn + option json :=
  match calendar with
  | [] => inr None
  | post :: rest =>
      match py_get post "date" JNull with
      | inl e => inl e
      | inr v =>
          if eq_str v target_str then inr (Some post)
          else find_post target_str rest
      end
  end.

Definition get_todays_post (calendar : list json) (target_date : option date)
  : exn + option json :=
  let target_date :=
    match target_date with
    | None => w_today w
    | Some d => d
    end in
  let target_str := isoformat target_date in
  find_post target_str calendar.

Definition load_system_prompt : M string := lift_lib (w_system_prompt w).

Definition user_prompt (post_type week content_data : json) : string :=
  "Generate a LinkedIn post for the following content:" ++ nl
  ++ nl
  ++ "Post Type: " ++ py_str rt post_type ++ nl
  ++ "Week: " ++ py_str rt week ++ nl
  ++ nl
  ++ "Content Data:" ++ nl
  ++ rt_json_dumps rt content_data ++ nl
  ++ nl
  ++ "Remember to:" ++ nl
  ++ "1. Start with an engaging hook" ++ nl
  ++ "2. Use the emoji appropriate for the post type (🧬 for gene, 💊 for intervention, 📊 for topic)" ++ nl
  ++ "3. Include key information in an accessible way" ++ nl
  ++ "4. End with the dual CTA for physicians and patients" ++ nl
  ++ "5. Add relevant hashtags" ++ nl
  ++ "6. Keep under 3000 characters total" ++ nl.

(** [client] is the key the client was built with. *)
Definition generate_post_text (post_data : json) (client : option string)
  : M string :=
  system_prompt <- load_system_prompt ;;
  post_type <- lift (py_getitem post_data "post_type") ;;
  week <- lift (py_getitem post_data "week") ;;
  content_data <- lift (py_getitem post_data "content_data") ;;
  log INFO "Generating post text with Claude..." ;;
  response <- messages_create client
                {| model := CLAUDE_MODEL;
                   max_tokens := 1500;
                   system := system_prompt;
                   messages := [("user", user_prompt post_type week content_data)] |} ;;
  generated_text <- lift (first_text response) ;;
  log INFO ("Generated " ++ str_Z (rt_len rt generated_text)
            ++ " characters of post text") ;;
  ret generated_text.

Definition userinfo_request (access_token : option string) : request :=
  {| req_method := GET;
     req_url := JStr "https://api.linkedin.com/v2/userinfo";
     req_headers := [("Authorization", "Bearer " ++ env_str access_token)];
     req_body := NoBody |}.

Definition get_person_urn (access_token : option string) : M string :=
  response <- requests UserInfo (userinfo_request access_token) ;;
  (if negb (status_code response =? 200)
   then log ERROR ("Failed to get user info: " ++ resp_text response) ;;
        raise (Exception ("Failed to get LinkedIn user info: "
                          ++ str_Z (status_code response)))
   else ret tt) ;;
  data <- lift_lib (resp_json response) ;;
  person_id <- lift (py_get data "sub" JNull) ;;
  name <- lift (py_get data "name" (JStr "Unknown")) ;;
  log INFO ("Authenticated as: " ++ py_str rt name) ;;
  ret ("urn:li:person:" ++ py_str rt person_id).

Definition register_request (access_token : option string) (person_urn : string)
  : request :=
  {| req_method := POST;
     req_url := JStr LINKEDIN_UPLOAD_URL;
     req_headers :=
       [("Authorization", "Bearer " ++ env_str access_token);
        ("Content-Type", "application/json");
        ("X-Restli-Protocol-Version", "2.0.0")];
     req_body :=
       JsonBody
         (JDict
            [("registerUploadRequest",
              JDict
                [("recipes", JList [JStr "urn:li:digitalmediaRecipe:feedshare-image"]);
                 ("owner", JStr person_urn);
                 ("serviceRelationships",
                  JList
                    [JDict [("relationshipType", JStr "OWNER");
                            ("identifier", JStr "urn:li:userGeneratedContent")]])])]) |}.

Definition upload_request (upload_url : json) (access_token : option string)
  (image_data : list byte) : request :=
  {| req_method := PUT;
     req_url := upload_url;
     req_headers :=
       [("Authorization", "Bearer " ++ env_str access_token);
        ("Content-Type", "image/jpeg")];
     req_body := DataBody image_data |}.

Definition upload_image_to_linkedin (image_path : string)
  (access_token : option string) (person_urn : string) : M json :=
  log INFO "Registering image upload with LinkedIn..." ;;
  register_response <-
    requests RegisterUpload (register_request access_token person_urn) ;;
  (if negb (status_code register_response =? 200)
   then log ERROR ("Failed to register upload: " ++ resp_text register_response) ;;
        raise (Exception ("LinkedIn upload registration failed: "
                          ++ str_Z (status_code register_response)))
   else ret tt) ;;
  register_data <- lift_lib (resp_json register_response) ;;
  upload_url <-
    lift (py_getitems register_data
            ["value"; "uploadMechanism";
             "com.linkedin.digitalmedia.uploading.MediaUploadHttpRequest";
             "uploadUrl"]) ;;
  asset_urn <- lift (py_getitems register_data ["value"; "asset"]) ;;
  log INFO ("Uploading image: " ++ image_path) ;;
  image_data <- lift_lib (w_read_bytes w image_path) ;;
  upload_response <-
    requests UploadBinary (upload_request upload_url access_token image_data) ;;
  (if negb ((status_code upload_response =? 200)
            || (status_code upload_response =? 201))
   then log ERROR ("Failed to upload image: " ++ resp_text upload_response) ;;
        raise (Exception ("LinkedIn image upload failed: "
                          ++ str_Z (status_code upload_response)))
   else ret tt) ;;
  log INFO ("Image uploaded successfully. Asset URN: " ++ py_str rt asset_urn) ;;
  ret asset_urn.

Definition post_payload (text : string) (image_asset_urn : json)
  (person_urn : string) : json :=
  JDict
    [("author", JStr person_urn);
     ("commentary", JStr text);
     ("visibility", JStr "PUBLIC");
     ("distribution",
      JDict [("feedDistribution", JStr "MAIN_FEED");
             ("targetEntities", JList []);
             ("thirdPartyDistributionChannels", JList [])]);
     ("content",
      JDict [("media", JDict [("title", JStr "Bioscope.AI");
                              ("id", image_asset_urn)])]);
     ("lifecycleState", JStr "PUBLISHED");
     ("isReshareDisabledByAuthor", JBool false)].

Definition post_request (text : string) (image_asset_urn : json)
  (access_token : option string) (person_urn : string) : request :=
  {| req_method := POST;
     req_url := JStr LINKEDIN_POSTS_URL;
     req_headers :=
       [("Authorization", "Bearer " ++ env_str access_token);
        ("Content-Type", "application/json");
        ("X-Restli-Protocol-Version", "2.0.0")];
     req_body := JsonBody (post_payload text image_asset_urn person_urn) |}.

Definition create_linkedin_post (text : string) (image_asset_urn : json)
  (access_token : option string) (person_urn : string) : M json :=
  log INFO "Creating LinkedIn post..." ;;
  response <-
    requests CreatePost (post_request text image_asset_urn access_token person_urn) ;;
  (if negb ((status_code response =? 200) || (status_code response =? 201))
   then log ERROR ("Failed to create post: " ++ resp_text response) ;;
        raise (Exception ("LinkedIn post creation failed: "
                          ++ str_Z (status_code response)))
   else ret tt) ;;
  result <- lift_lib (resp_json response) ;;
  log INFO "Post created successfully!" ;;
  ret result.

Definition slack_request (url message : string) (success : bool) : request :=
  let emoji := if success then "✅" else "❌" in
  {| req_method := POST;
     req_url := JStr url;
     req_headers := [];
     req_body :=
       JsonBody (JDict [("text", JStr (emoji ++ " " ++ message));
                        ("username", JStr "Bioscope LinkedIn Bot")]) |}.

Definition send_slack_notification (message : string) (success : bool) : M unit :=
  match SLACK_WEBHOOK_URL cfg with
  | None => ret tt
  | Some url =>
      if String.eqb url EmptyString then ret tt
      else
        try_except
          (_ <- requests Slack (slack_request url message success) ;; ret tt)
          (fun e =>
             log WARNING ("Failed to send Slack notification: " ++ exn_str rt e))
  end.

(** [main], lines 267 to 271: the target date. *)
Definition target_date (args : Args) : lib_error + date :=
  match arg_date args with
  | Some s =>
      if negb (String.eqb s EmptyString) then rt_fromisoformat rt s
      else inr (w_today w)
  | None => inr (w_today w)
  end.

(** [main], lines 261 to 311: from the arguments to the generated text.
    The result is the calendar entry and the text. *)
Definition main_generate (args : Args) : M (json * string) :=
  (* Determine target date *)
  target_date <- lift_lib (target_date args) ;;
  let day_name := lower (strftime_A target_date) in
  log INFO ("Running for date: " ++ isoformat target_date
            ++ " (" ++ day_name ++ ")") ;;
  (* Check if today is a posting day *)
  (if negb (dict_mem day_name POSTING_DAYS) && negb (force args)
   then log INFO ("Today (" ++ day_name
                  ++ ") is not a scheduled posting day. Exiting.") ;;
        py_return
   else ret tt) ;;
  (* Validate configuration *)
  (if negb (dry_run args)
   then if negb (env_truthy (LINKEDIN_ACCESS_TOKEN cfg))
        then log ERROR "LINKEDIN_ACCESS_TOKEN not set" ;; sys_exit 1
        else ret tt
   else ret tt) ;;
  (if negb (env_truthy (ANTHROPIC_API_KEY cfg))
   then log ERROR "ANTHROPIC_API_KEY not set" ;; sys_exit 1
   else ret tt) ;;
  (* Load calendar and find today's post *)
  calendar <- load_calendar ;;
  found <- lift (get_todays_post calendar (Some target_date)) ;;
  match found with
  | None =>
      log WARNING ("No post scheduled for " ++ isoformat target_date) ;;
      py_return
  | Some post =>
      (if negb (py_truthy post)
       then log WARNING ("No post scheduled for " ++ isoformat target_date) ;;
            py_return
       else ret tt) ;;
      week <- lift (py_getitem post "week") ;;
      post_type <- lift (py_getitem post "post_type") ;;
      title <- lift (py_get post "title" (JStr "Untitled")) ;;
      log INFO ("Found scheduled post: Week " ++ py_str rt week ++ " - "
                ++ py_str rt post_type ++ " - " ++ py_str rt title) ;;
      (* Initialize Claude client *)
      let claude := ANTHROPIC_API_KEY cfg in
      (* Generate post text *)
      post_text <- generate_post_text post claude ;;
      log INFO (str_mul "=" 50) ;;
      log INFO "GENERATED POST TEXT:" ;;
      log INFO (str_mul "=" 50) ;;
      log INFO post_text ;;
      log INFO (str_mul "=" 50) ;;
      ret (post, post_text)
  end.

(** [main], lines 313 to 326: the dry-run stop and the image path. *)
Definition main_image_path (args : Args) (post : json) : M string :=
  (if dry_run args
   then log INFO "DRY RUN - Not posting to LinkedIn" ;; py_return
   else ret tt) ;;
  (* Get image path *)
  image_filename <- lift (py_get post "image_file" JNull) ;;
  (if negb (py_truthy image_filename)
   then log ERROR "No image_file specified in post data" ;; sys_exit 1
   else ret tt) ;;
  image_path <-
    match image_filename with
    | JStr name => ret (rt_path_join rt (IMAGES_DIR cfg) name)
    | _ => raise (TypeError "truediv" (py_type_name image_filename))
    end ;;
  (if negb (w_exists w image_path)
   then log ERROR ("Image not found: " ++ image_path) ;; sys_exit 1
   else ret tt) ;;
  ret image_path.

(** [main], lines 329 to 351: the body of the [try]. *)
Definition main_try (post : json) (post_text image_path : string) : M unit :=
  (* Get person URN from access token *)
  person_urn <- get_person_urn (LINKEDIN_ACCESS_TOKEN cfg) ;;
  (* Upload image *)
  asset_urn <-
    upload_image_to_linkedin image_path (LINKEDIN_ACCESS_TOKEN cfg) person_urn ;;
  (* Create post *)
  result <-
    create_linkedin_post post_text asset_urn (LINKEDIN_ACCESS_TOKEN cfg) person_urn ;;
  (* Log success *)
  week <- lift (py_getitem post "week") ;;
  post_type <- lift (py_getitem post "post_type") ;;
  log INFO ("Successfully posted: Week " ++ py_str rt week ++ " "
            ++ py_str rt post_type) ;;
  week' <- lift (py_getitem post "week") ;;
  post_type' <- lift (py_getitem post "post_type") ;;
  title <- lift (py_get post "title" (JStr "Untitled")) ;;
  send_slack_notification
    ("Posted Week " ++ py_str rt week' ++ " " ++ py_str rt post_type' ++ ": "
     ++ py_str rt title) true.

(** [main], lines 356 to 359: the [except] clause. *)
Definition main_except (post : json) (e : exn) : M unit :=
  log ERROR ("Failed to post: " ++ exn_str rt e) ;;
  week <- lift (py_getitem post "week") ;;
  send_slack_notification
    ("FAILED to post Week " ++ py_str rt week ++ ": " ++ exn_str rt e) false ;;
  sys_exit 1.

Definition main (args : Args) : M unit :=
  '(post, post_text) <- main_generate args ;;
  image_path <- main_image_path args post ;;
  try_except (main_try post post_text image_path) (main_except post).

(** A run of the script: [main()] on an empty trace. *)
Definition run (args : Args) : res unit * trace := main args [].

End Script.

(** ** A concrete environment

    The scenario of the specification: an entry for Sunday 2024-06-02,
    and one for Tuesday 2024-06-04 that names no image.  [runtime]
    answers as CPython 3.10 does on the values that occur here. *)

Module Scenario.

Definition digit (c : ascii) : option Z :=
  let n := nat_of_ascii c in
  if ((48 <=? n) && (n <=? 57))%nat then Some (Z.of_nat (n - 48)) else None.

Fixpoint number (acc : Z) (s : string) : option Z :=
  match s with
  | EmptyString => Some acc
  | String c s' =>
      match digit c with
      | Some d => number (10 * acc + d) s'
      | None => None
      end
  end.

Definition days_in_month (y m : Z) : Z :=
  if (m =? 2) && is_leap y then 29
  else nth (Z.to_nat m) [0; 31; 28; 31; 30; 31; 30; 31; 31; 30; 31; 30; 31] 0.

(** [YYYY-MM-DD] only. *)
Definition fromisoformat (s : string) : lib_error + date :=
  let bad := inl {| err_class := "ValueError";
                    err_msg := "Invalid isoformat string: '" ++ s ++ "'" |} in
  if negb ((String.length s =? 10)%nat
           && String.eqb (substring 4 1 s) "-"
           && String.eqb (substring 7 1 s) "-")
  then bad
  else
    match number 0 (substring 0 4 s), number 0 (substring 5 2 s),
          number 0 (substring 8 2 s) with
    | Some y, Some m, Some d =>
        if (1 <=? y) && (1 <=? m) && (m <=? 12) && (1 <=? d)
           && (d <=? days_in_month y m)
        then inr (mkdate y m d)
        else bad
    | _, _, _ => bad
    end.

Definition quote (s : string) : string := "'" ++ s ++ "'".

Definition exn_text (e : exn) : string :=
  match e with
  | KeyError k => quote k
  | IndexError => "list index out of range"
  | AttributeError ty attr =>
      quote ty ++ " object has no attribute " ++ quote attr
  | TypeError _ ty => quote ty ++ " object does not support the operation"
  | _ => EmptyString
  end.

Definition runtime : Runtime :=
  {| rt_repr_str := quote;
     rt_json_dumps := fun _ => "{}";
     rt_fromisoformat := fromisoformat;
     rt_exn_text := exn_text;
     rt_path_join := fun dir name => dir ++ "/" ++ name;
     rt_len := fun s => Z.of_nat (String.length s) |}.

Definition config (key token slack : option string) : Config :=
  {| ANTHROPIC_API_KEY := key;
     LINKEDIN_ACCESS_TOKEN := token;
     SLACK_WEBHOOK_URL := slack;
     IMAGES_DIR := "/app/content/images" |}.

Definition api_key : option string := Some "sk-ant-test".
Definition token : option string := Some "li-token".

Definition webhook : string := "https://hooks.slack.test/T0/B0".

Definition fields_sunday : list (string * json) :=
  [("date", JStr "2024-06-02");
   ("post_type", JStr "gene");
   ("week", JInt 3);
   ("title", JStr "BRCA1");
   ("content_data", JDict []);
   ("image_file", JStr "w3.jpg")].

Definition fields_tuesday : list (string * json) :=
  [("date", JStr "2024-06-04");
   ("post_type", JStr "intervention");
   ("week", JInt 3);
   ("content_data", JDict [])].

Definition entry_sunday : json := JDict fields_sunday.
Definition entry_tuesday : json := JDict fields_tuesday.

Definition calendar : list json := [entry_sunday; entry_tuesday].

Definition generated : string := "Meet BRCA1, the guardian of your genome.".

Definition userinfo_body : json :=
  JDict [("sub", JStr "abc123"); ("name", JStr "Don")].

Definition register_body : json :=
  JDict
    [("value",
      JDict
        [("uploadMechanism",
          JDict
            [("com.linkedin.digitalmedia.uploading.MediaUploadHttpRequest",
              JDict [("uploadUrl", JStr "https://upload.test/u1")])]);
         ("asset", JStr "urn:li:digitalmediaAsset:A1")])].

Definition reply (status : Z) (body : string) (js : json) : lib_error + response :=
  inr {| status_code := status; resp_text := body; resp_json := inr js |}.

(** The endpoints: [userinfo] and [register] are the replies of the two
    first LinkedIn calls; the webhook answers unless [slack_down]. *)
Definition endpoints (userinfo register : lib_error + response)
  (slack_down : bool) (h : trace) (req : request) : lib_error + response :=
  match req_method req, req_url req with
  | GET, _ => userinfo
  | PUT, _ => reply 201 EmptyString JNull
  | POST, JStr url =>
      if String.eqb url LINKEDIN_UPLOAD_URL then register
      else if String.eqb url LINKEDIN_POSTS_URL
      then reply 201 "{}" (JDict [("id", JStr "urn:li:share:S1")])
      else if slack_down
      then inl {| err_class := "ConnectionError"; err_msg := "connection refused" |}
      else reply 200 "ok" JNull
  | POST, _ => inl {| err_class := "MissingSchema"; err_msg := "Invalid URL" |}
  end.

Definition world (today : date) (userinfo register : lib_error + response)
  (slack_down : bool) : World :=
  {| w_today := today;
     w_calendar := inr calendar;
     w_system_prompt := inr "You write LinkedIn posts.";
     w_exists := fun path => String.eqb path "/app/content/images/w3.jpg";
     w_read_bytes := fun _ => inr [x00; x01];
     w_messages_create := fun _ _ _ => inr [TextBlock generated];
     w_requests := endpoints userinfo register slack_down |}.

Definition userinfo_ok := reply 200 "{}" userinfo_body.
Definition register_ok := reply 200 "{}" register_body.

Definition sunday : date := mkdate 2024 6 2.

Definition args (dry : bool) (day : option string) (forced : bool) : Args :=
  {| dry_run := dry; arg_date := day; force := forced |}.

Definition cfg : Config := config api_key token (Some webhook).

(** A run that is not a dry run, on the day of the world. *)
Definition live : Args := args false None false.

Definition w_fine : World := world sunday userinfo_ok register_ok false.

(** The identity call is refused. *)
Definition w_refused : World :=
  world sunday (reply 401 "token expired" JNull) register_ok false.

(** The registration of the upload is refused. *)
Definition w_unregistered : World :=
  world sunday userinfo_ok (reply 500 "boom" JNull) false.

End Scenario.

(** ** Observations on runs *)

(** [runs m h Q]: started on the trace [h], the computation [m] ends
    with a result and appends events that satisfy [Q]. *)
Definition runs {A} (m : M A) (h : trace) (Q : res A -> trace -> Prop) : Prop :=
  Q (fst (m h)) (snd (m h)).

Definition is_http (ev : event) : bool :=
  match ev with
  | Http _ _ _ => true
  | _ => false
  end.

Definition is_llm (ev : event) : bool :=
  match ev with
  | Llm _ _ _ => true
  | _ => false
  end.

(** What [send_slack_notification] may append: log lines and calls to
    the webhook. *)
Definition only_slack (ev : event) : bool :=
  match ev with
  | Log _ _ => true
  | Http Slack _ _ => true
  | _ => false
  end.

(** The configuration with another LinkedIn token. *)
Definition set_token (cfg : Config) (tok : option string) : Config :=
  {| ANTHROPIC_API_KEY := ANTHROPIC_API_KEY cfg;
     LINKEDIN_ACCESS_TOKEN := tok;
     SLACK_WEBHOOK_URL := SLACK_WEBHOOK_URL cfg;
     IMAGES_DIR := IMAGES_DIR cfg |}.

(** [s in t]. *)
Definition contains (s t : string) : bool :=
  match index 0 s t with
  | Some _ => true
  | None => false
  end.


(** ** The order of the calls

    The stages a run goes through, told by its calls.  [Failed] is
    entered by a LinkedIn call that is refused, [Ended] by the call to
    the webhook, or by a call to the model that fails; [Ended true] says
    the post had been accepted. *)
Inductive stage :=
| Start | Generated | Identified | Registered | Uploaded | Published
| Failed
| Ended (published : bool).

(** What each caller takes for a success. *)
Definition accepted (c : caller) (reply : lib_error + response) : bool :=
  match reply with
  | inl _ => false
  | inr r =>
      match c with
      | UserInfo | RegisterUpload => status_code r =? 200
      | UploadBinary | CreatePost =>
          (status_code r =? 200) || (status_code r =? 201)
      | Slack => true
      end
  end.

(** The stage after an event, when the event may happen at that stage. *)
Definition advance (s : stage) (ev : event) : option stage :=
  match ev with
  | Log _ _ => Some s
  | Llm _ _ reply =>
      match s with
      | Start =>
          Some (match reply with
                | inr _ => Generated
                | inl _ => Ended false
                end)
      | _ => None
      end
  | Http c _ reply =>
      let next ok := if accepted c reply then ok else Failed in
      match c, s with
      | UserInfo, Generated => Some (next Identified)
      | RegisterUpload, Identified => Some (next Registered)
      | UploadBinary, Registered => Some (next Uploaded)
      | CreatePost, Uploaded => Some (next Published)
      | Slack, Published => Some (Ended true)
      | Slack, (Identified | Registered | Uploaded | Failed) => Some (Ended false)
      | _, _ => None
      end
  end.

Fixpoint protocol (s : stage) (tr : trace) : option stage :=
  match tr with
  | [] => Some s
  | ev :: tr' =>
      match advance s ev with
      | Some s' => protocol s' tr'
      | None => None
      end
  end.

(** The stages at which the [except] clause of [main] can run. *)
Definition handler_stage (s : stage) : bool :=
  match s with
  | Identified | Registered | Uploaded | Published | Failed => true
  | _ => false
  end.

Definition rank (s : stage) : nat :=
  match s with
  | Start => 0
  | Generated => 1
  | Identified => 2
  | Registered => 3
  | Uploaded => 4
  | Published => 5
  | Failed => 6
  | Ended _ => 7
  end.

(** The last stage a call by [c] can start from. *)
Definition last_rank (c : caller) : nat :=
  match c with
  | UserInfo => 1
  | RegisterUpload => 2
  | UploadBinary => 3
  | CreatePost => 4
  | Slack => 6
  end.

(** The exception a LinkedIn call made by [c] ends with when its reply
    is not accepted: the error of the transport as it is, or the
    exception the caller raises for the status (lines 118, 165, 190 and
    235). *)
Definition refusal (c : caller) (reply : lib_error + response) : exn :=
  match reply with
  | inl err => LibraryError err
  | inr r =>
      Exception
        (match c with
         | UserInfo => "Failed to get LinkedIn user info: "
         | RegisterUpload => "LinkedIn upload registration failed: "
         | UploadBinary => "LinkedIn image upload failed: "
         | CreatePost => "LinkedIn post creation failed: "
         | Slack => EmptyString
         end ++ str_Z (status_code r))
  end.

(** ** Log lines *)

Definition is_error_log (ev : event) : bool :=
  match ev with
  | Log ERROR _ => true
  | _ => false
  end.

(** What a run appends while nothing is refused: lines at level [INFO]
    and the call to the model. *)
Definition quiet_event (ev : event) : bool :=
  match ev with
  | Log INFO _ => true
  | Llm _ _ _ => true
  | _ => false
  end.

(** ** Other environments *)

Definition with_calendar (w : World) (cal : lib_error + list json) : World :=
  {| w_today := w_today w;
     w_calendar := cal;
     w_system_prompt := w_system_prompt w;
     w_exists := w_exists w;
     w_read_bytes := w_read_bytes w;
     w_messages_create := w_messages_create w;
     w_requests := w_requests w |}.

Definition with_model (w : World) (reply : lib_error + list block) : World :=
  {| w_today := w_today w;
     w_calendar := w_calendar w;
     w_system_prompt := w_system_prompt w;
     w_exists := w_exists w;
     w_read_bytes := w_read_bytes w;
     w_messages_create := fun _ _ _ => reply;
     w_requests := w_requests w |}.

Definition with_requests (w : World)
  (answer : trace -> request -> lib_error + response) : World :=
  {| w_today := w_today w;
     w_calendar := w_calendar w;
     w_system_prompt := w_system_prompt w;
     w_exists := w_exists w;
     w_read_bytes := w_read_bytes w;
     w_messages_create := w_messages_create w;
     w_requests := answer |}.

(** A stage of [main] outside the [try]: it ends with [sys.exit(1)]
    after an error line, or logs no error; unless it returns, what it
    appends is quiet. *)
Definition exits_or_quiet {A} (r : res A) (ev : trace) : Prop :=
  (r = Raise (SystemExit 1) /\ exists msg, In (Log ERROR msg) ev)
  \/ ((forall code, r <> Raise (SystemExit code))
      /\ Forall (fun e => is_error_log e = false) ev
      /\ (r <> Return -> Forall (fun e => quiet_event e = true) ev)).

(** ** More concrete environments *)

Module Cases.
Import Scenario.

Definition not_json : lib_error :=
  {| err_class := "JSONDecodeError";
     err_msg := "Expecting value: line 1 column 1 (char 0)" |}.

(** The posts endpoint accepts the post and answers with a page. *)
Definition accepted_unreadable : response :=
  {| status_code := 201; resp_text := "<html>"; resp_json := inl not_json |}.

Definition publish_unreadable (h : trace) (req : request) : lib_error + response :=
  match req_method req, req_url req with
  | POST, JStr url =>
      if String.eqb url LINKEDIN_POSTS_URL then inr accepted_unreadable
      else endpoints userinfo_ok register_ok false h req
  | _, _ => endpoints userinfo_ok register_ok false h req
  end.

Definition w_unreadable : World := with_requests w_fine publish_unreadable.

(** The webhook answers 500. *)
Definition w_slack_500 : World :=
  with_requests w_fine (fun _ _ => reply 500 "oops" JNull).

Definition overloaded : lib_error :=
  {| err_class := "APIStatusError"; err_msg := "Overloaded" |}.

Definition w_model_down : World := with_model w_fine (inl overloaded).

Definition entry_no_week : json :=
  JDict [("date", JStr "2024-06-02"); ("post_type", JStr "gene")].

Definition entry_numbered_image : json :=
  JDict [("date", JStr "2024-06-02");
         ("post_type", JStr "gene");
         ("week", JInt 3);
         ("content_data", JDict []);
         ("image_file", JInt 7)].

Definition w_no_week : World := with_calendar w_fine (inr [entry_no_week]).

Definition w_numbered_image : World :=
  with_calendar w_fine (inr [entry_numbered_image]).

Definition no_calendar : lib_error :=
  {| err_class := "FileNotFoundError";
     err_msg := "[Errno 2] No such file or directory: 'content/calendar.json'" |}.

Definition w_no_calendar : World := with_calendar w_fine (inl no_calendar).

Definition thursday_args : Args := args false (Some "2024-06-06") false.

Definition model_request : llm_request :=
  {| model := CLAUDE_MODEL;
     max_tokens := 1500;
     system := "You write LinkedIn posts.";
     messages := [("user", user_prompt runtime (JStr "gene") (JInt 3) (JDict []))] |}.

Definition publish_request : request :=
  post_request generated (JStr "urn:li:digitalmediaAsset:A1")
    token "urn:li:person:abc123".

End Cases.

(** * Properties *)

(** ** Rules to follow a computation statement by statement *)
Section Rules.
Context {A B : Type}.

Lemma runs_ret (a : A) h Q : Q (Ok a) [] -> runs (ret a) h Q.
Proof. exact (fun H => H). Qed.

Lemma runs_raise (e : exn) h (Q : res A -> trace -> Prop) :
  Q (Raise e) [] -> runs (raise e) h Q.
Proof. exact (fun H => H). Qed.

Lemma runs_return h (Q : res A -> trace -> Prop) :
  Q Return [] -> runs py_return h Q.
Proof. exact (fun H => H). Qed.

Lemma runs_bind (m : M A) (k : A -> M B) h Q :
  runs m h (fun r ev =>
              match r with
              | Ok a => runs (k a) (h ++ ev)%list (fun r' ev' => Q r' (ev ++ ev')%list)
              | Return => Q Return ev
              | Raise e => Q (Raise e) ev
              end) ->
  runs (bind m k) h Q.
Proof.
  unfold runs. cbn. unfold bindM.
  destruct (m h) as [[a | | e] ev]; cbn; auto.
  destruct (k a (h ++ ev)%list); auto.
Qed.

Lemma runs_try (m : M A) (k : exn -> M A) h Q :
  runs m h (fun r ev =>
              match r with
              | Raise e =>
                  if is_Exception e
                  then runs (k e) (h ++ ev)%list (fun r' ev' => Q r' (ev ++ ev')%list)
                  else Q (Raise e) ev
              | _ => Q r ev
              end) ->
  runs (try_except m k) h Q.
Proof.
  unfold runs, try_except.
  destruct (m h) as [[a | | e] ev]; cbn; auto.
  destruct (is_Exception e); auto.
  destruct (k e (h ++ ev)%list); auto.
Qed.

Lemma runs_conseq (m : M A) h (P Q : res A -> trace -> Prop) :
  runs m h P -> (forall r ev, P r ev -> Q r ev) -> runs m h Q.
Proof. unfold runs. auto. Qed.

End Rules.

Lemma runs_log lvl msg h Q : Q (Ok tt) [Log lvl msg] -> runs (log lvl msg) h Q.
Proof. exact (fun H => H). Qed.

Section RulesW.
Variable w : World.

Lemma runs_requests c req h Q :
  (forall r, w_requests w h req = inr r -> Q (Ok r) [Http c req (inr r)]) ->
  (forall err, w_requests w h req = inl err ->
               Q (Raise (LibraryError err)) [Http c req (inl err)]) ->
  runs (requests w c req) h Q.
Proof.
  unfold runs, requests. cbn. destruct (w_requests w h req); auto.
Qed.

Lemma runs_messages_create k req h Q :
  (forall r, w_messages_create w h k req = inr r -> Q (Ok r) [Llm k req (inr r)]) ->
  (forall err, w_messages_create w h k req = inl err ->
               Q (Raise (LibraryError err)) [Llm k req (inl err)]) ->
  runs (messages_create w k req) h Q.
Proof.
  unfold runs, messages_create. cbn. destruct (w_messages_create w h k req); auto.
Qed.
End RulesW.

Lemma runs_eq {A} (m : M A) h r ev :
  runs m h (fun r' ev' => r' = r /\ ev' = ev) -> m h = (r, ev).
Proof. unfold runs. destruct (m h). cbn. intros [-> ->]. reflexivity. Qed.

Lemma runs_elim {A} (m : M A) h Q : runs m h Q -> Q (fst (m h)) (snd (m h)).
Proof. exact (fun H => H). Qed.

(** Branch on [x], or use what is known of it. *)
Ltac case_on x :=
  match goal with
  | H : x = _ |- _ => rewrite H
  | _ => destruct x eqn:?
  end.

(** One statement of the script. *)
Ltac step :=
  cbn [negb andb orb];
  lazymatch goal with
  | |- runs (bind _ _) _ _ => apply runs_bind
  | |- runs (ret _) _ _ => apply runs_ret
  | |- runs (raise _) _ _ => apply runs_raise
  | |- runs (sys_exit _) _ _ => apply runs_raise
  | |- runs py_return _ _ => apply runs_return
  | |- runs (log _ _) _ _ => apply runs_log
  | |- runs (requests _ _ _) _ _ => apply runs_requests; intros
  | |- runs (messages_create _ _ _) _ _ => apply runs_messages_create; intros
  | |- runs (try_except _ _) _ _ => apply runs_try
  | |- runs (lift ?x) _ _ => unfold lift; case_on x
  | |- runs (lift_lib ?x) _ _ => unfold lift_lib; case_on x
  | |- runs (if ?c then _ else _) _ _ => case_on c
  | |- runs (match ?x with _ => _ end) _ _ => case_on x
  | |- (if is_Exception ?e then _ else _) =>
      first [ change (is_Exception e) with true
            | change (is_Exception e) with false ]
  end.

Ltac break_in H :=
  repeat match type of H with
  | In _ [] => destruct H
  | In _ (_ :: _) => destruct H as [H | H]; [try discriminate H|]
  end.

(** The end of a path: the trace is a list of known events. *)
Ltac trace_tac :=
  cbn [app];
  repeat match goal with
  | |- _ /\ _ => split
  | |- Forall _ [] => constructor
  | |- Forall _ (_ :: _) => constructor; [reflexivity|]
  | |- forall _, _ => intro
  | H : Ok _ = Return |- _ => discriminate H
  | H : Ok _ = Raise _ |- _ => discriminate H
  | H : Return = Ok _ |- _ => discriminate H
  | H : Return = Raise _ |- _ => discriminate H
  | H : Raise _ = Ok _ |- _ => discriminate H
  | H : Raise _ = Return |- _ => discriminate H
  | H : In _ _ |- _ => progress break_in H
  end.

Ltac in_list := cbn [In]; repeat first [left; reflexivity | right].

(** ** Weekdays *)

Lemma weekday_range d : 0 <= weekday d < 7.
Proof. unfold weekday. apply Z.mod_pos_bound. lia. Qed.

(** The posting days are Tuesday, Thursday and Sunday. *)
Lemma posting_day_by_weekday d :
  dict_mem (lower (strftime_A d)) POSTING_DAYS
  = (weekday d =? 1) || (weekday d =? 3) || (weekday d =? 6).
Proof.
  unfold strftime_A. pose proof (weekday_range d) as R.
  assert (C : weekday d = 0 \/ weekday d = 1 \/ weekday d = 2 \/ weekday d = 3
              \/ weekday d = 4 \/ weekday d = 5 \/ weekday d = 6) by lia.
  decompose [or] C; clear C;
    match goal with H : weekday d = _ |- _ => rewrite H end; reflexivity.
Qed.

(** ** Events and exceptions *)

Lemma only_slack_not_by c ev :
  c <> Slack -> only_slack ev = true -> is_call_by c ev = false.
Proof. destruct ev as [| [] |], c; cbn; congruence. Qed.

Lemma only_slack_not_llm ev : only_slack ev = true -> is_llm ev = false.
Proof. destruct ev as [| [] |]; cbn; congruence. Qed.

(** The interpreter errors of the script are instances of [Exception]. *)
Lemma py_get_raises v k d e : py_get v k d = inl e -> is_Exception e = true.
Proof.
  unfold py_get. destruct v as [| | | | | |fields];
    try (intros [= <-]; reflexivity).
  destruct (dict_lookup k fields); discriminate.
Qed.

Lemma py_getitem_raises v k e : py_getitem v k = inl e -> is_Exception e = true.
Proof.
  unfold py_getitem. destruct v as [| | | | | |fields];
    try (intros [= <-]; reflexivity).
  destruct (dict_lookup k fields); [discriminate | intros [= <-]; reflexivity].
Qed.

Lemma py_getitems_raises ks : forall v e,
  py_getitems v ks = inl e -> is_Exception e = true.
Proof.
  induction ks as [|k ks IH]; cbn; intros v e H; [discriminate|].
  destruct (py_getitem v k) eqn:E.
  - injection H as <-. eapply py_getitem_raises; eassumption.
  - eapply IH; eassumption.
Qed.

Create HintDb raises.
#[local] Hint Resolve py_get_raises py_getitem_raises py_getitems_raises : raises.

(** ** The stages of [main] *)

Section Properties.
Variable rt : Runtime.
Variable cfg : Config.
Variable w : World.

(** The notifier returns normally and appends at most a call to the
    webhook and a warning. *)
Lemma send_slack_notification_facts msg success h :
  runs (send_slack_notification rt cfg w msg success) h
    (fun r ev =>
       r = Ok tt
       /\ Forall (fun e => only_slack e = true) ev
       /\ (env_truthy (SLACK_WEBHOOK_URL cfg) = false -> ev = [])
       /\ (forall url, SLACK_WEBHOOK_URL cfg = Some url -> url <> EmptyString ->
             let req := slack_request url msg success in
             ev = Http Slack req (w_requests w h req)
                  :: match w_requests w h req with
                     | inl err =>
                         [Log WARNING ("Failed to send Slack notification: "
                                       ++ err_msg err)]
                     | inr _ => []
                     end)).
Proof.
  unfold send_slack_notification.
  repeat step; trace_tac; try reflexivity.
  all: try match goal with
         | H : Some _ = Some _ |- _ => injection H as <-
         end.
  all: try match goal with
         | H : String.eqb ?u EmptyString = true, N : ?u <> EmptyString |- _ =>
             apply String.eqb_eq in H; contradiction
         end.
  all: try match goal with
         | H : env_truthy (Some _) = false, E : String.eqb _ EmptyString = false |- _ =>
             cbn in H; rewrite E in H; discriminate H
         end.
  all: try discriminate.
  all: cbv zeta; match goal with H : w_requests _ _ _ = _ |- _ => rewrite H end;
    reflexivity.
Qed.

(** Up to the generated text, [main] makes no HTTP call; when it gets
    there, the entry is the one of the target date, it has a week, and
    the text is the first block of the answer of the model. *)
Lemma main_generate_facts args h :
  runs (main_generate rt cfg w args) h
    (fun r ev =>
       Forall (fun e => is_http e = false) ev
       /\ forall post text, r = Ok (post, text) ->
          (exists d cal week,
            target_date rt w args = inr d /\ w_calendar w = inr cal
            /\ get_todays_post w cal (Some d) = inr (Some post)
            /\ py_getitem post "week" = inr week)
          /\ (forall k req reply, In (Llm k req reply) ev ->
                exists content, reply = inr content /\ first_text content = inr text)).
Proof.
  unfold main_generate, generate_post_text, load_calendar, load_system_prompt.
  repeat step; trace_tac.
  all: match goal with H : Ok _ = Ok _ |- _ => injection H as <- <- end.
  all: try match goal with
         | H : Llm _ _ _ = Llm _ _ _ |- _ => injection H as <- <- <-
         end.
  all: eauto 10.
Qed.

(** The checks of the image path make no call; they pass only outside
    a dry run, and then log nothing. *)
Lemma main_image_path_facts args post h :
  runs (main_image_path rt cfg w args post) h
    (fun r ev =>
       Forall (fun e => is_network_call e = false) ev
       /\ forall path, r = Ok path -> dry_run args = false /\ ev = []).
Proof.
  unfold main_image_path.
  repeat step; trace_tac; reflexivity.
Qed.

(** The body of the [try]: it raises instances of [Exception] only, does
    not call the model, posts the text it was given, and stops at a
    registration that is refused. *)
Lemma main_try_facts post post_text image_path h :
  runs (main_try rt cfg w post post_text image_path) h
    (fun r ev =>
       (forall e, r = Raise e -> is_Exception e = true)
       /\ Forall (fun e => is_llm e = false) ev
       /\ (forall req reply, In (Http CreatePost req reply) ev ->
             exists asset person_urn,
               req = post_request post_text asset (LINKEDIN_ACCESS_TOKEN cfg) person_urn)
       /\ (forall req resp,
             In (Http RegisterUpload req (inr resp)) ev ->
             status_code resp <> 200 ->
             r = Raise (Exception ("LinkedIn upload registration failed: "
                                   ++ str_Z (status_code resp)))
             /\ Forall (fun e => is_call_by CreatePost e = false) ev
             /\ Forall (fun e => is_call_by Slack e = false) ev)).
Proof.
  unfold main_try, get_person_urn, upload_image_to_linkedin, create_linkedin_post.
  repeat step.
  all: try (eapply runs_conseq; [apply send_slack_notification_facts|];
            cbv beta; intros ? evs (-> & Hs & _)).
  all: trace_tac.
  all: try match goal with
         | H : Raise _ = Raise _ |- _ =>
             injection H as <-; first [reflexivity | eauto with raises]
         end.
  all: try match goal with
         | H : Http RegisterUpload _ _ = Http RegisterUpload _ _ |- _ =>
             injection H as <- <-
         end.
  all: try match goal with
         | H : Http CreatePost _ _ = Http CreatePost _ _ |- _ =>
             injection H as <- <-; eauto
         end.
  all: try match goal with
         | H : negb (status_code ?r =? 200) = false, N : status_code ?r <> 200 |- _ =>
             apply negb_false_iff, Z.eqb_eq in H; contradiction
         end.
  all: try reflexivity.
  all: try match goal with
         | H : In _ ?evs, F : Forall _ ?evs |- _ =>
             rewrite Forall_forall in F; apply F in H; discriminate H
         end.
  all: try (eapply Forall_impl; [|eassumption]; apply only_slack_not_llm).
Qed.


(** *** [get_person_urn] *)

Lemma get_person_urn_ok tok h resp d :
  w_requests w h (userinfo_request tok) = inr resp ->
  status_code resp = 200 ->
  resp_json resp = inr (JDict d) ->
  get_person_urn rt w tok h
  = (Ok ("urn:li:person:"
         ++ py_str rt (match dict_lookup "sub" d with Some x => x | None => JNull end)),
     [Http UserInfo (userinfo_request tok) (inr resp);
      Log INFO ("Authenticated as: "
                ++ py_str rt (match dict_lookup "name" d with
                              | Some x => x
                              | None => JStr "Unknown"
                              end))]).
Proof.
  intros Hreq Hst Hjs. apply runs_eq. unfold get_person_urn.
  apply runs_bind, runs_requests; rewrite Hreq; [|discriminate].
  intros r [= <-]. rewrite Hst, Hjs. repeat step.
  all: unfold py_get in *.
  all: destruct (dict_lookup "sub" d), (dict_lookup "name" d); try discriminate.
  all: repeat match goal with H : inr _ = inr _ |- _ => injection H as <- end.
  all: split; reflexivity.
Qed.

Lemma get_person_urn_failed tok h resp :
  w_requests w h (userinfo_request tok) = inr resp ->
  status_code resp <> 200 ->
  get_person_urn rt w tok h
  = (Raise (Exception ("Failed to get LinkedIn user info: " ++ str_Z (status_code resp))),
     [Http UserInfo (userinfo_request tok) (inr resp);
      Log ERROR ("Failed to get user info: " ++ resp_text resp)]).
Proof.
  intros Hreq Hst. apply runs_eq. unfold get_person_urn.
  apply runs_bind, runs_requests; rewrite Hreq; [|discriminate].
  intros r [= <-]. apply Z.eqb_neq in Hst. rewrite Hst. repeat step.
  split; reflexivity.
Qed.

Lemma get_person_urn_calls tok h :
  filter is_network_call (snd (get_person_urn rt w tok h))
  = [Http UserInfo (userinfo_request tok) (w_requests w h (userinfo_request tok))].
Proof.
  apply (runs_elim (get_person_urn rt w tok) h
           (fun _ ev => filter is_network_call ev = _)).
  unfold get_person_urn.
  apply runs_bind, runs_requests; intros ? ->; repeat step; reflexivity.
Qed.


(** *** The end of [main] *)

Lemma main_image_path_dry c args post h :
  dry_run args = true ->
  main_image_path rt c w args post h
  = (Return, [Log INFO "DRY RUN - Not posting to LinkedIn"]).
Proof. intros H. unfold main_image_path. rewrite H. reflexivity. Qed.

Lemma send_slack_notification_ok msg success h :
  fst (send_slack_notification rt cfg w msg success h) = Ok tt.
Proof. apply (send_slack_notification_facts msg success h). Qed.

(** The [except] clause, for an entry that has a week. *)
Lemma main_except_run post e h week :
  py_getitem post "week" = inr week ->
  let failure := Log ERROR ("Failed to post: " ++ exn_str rt e) in
  let message :=
    "FAILED to post Week " ++ py_str rt week ++ ": " ++ exn_str rt e in
  main_except rt cfg w post e h
  = (Raise (SystemExit 1),
     failure :: snd (send_slack_notification rt cfg w message false
                       (h ++ [failure])%list)).
Proof.
  intros Hw failure message. apply runs_eq. unfold main_except.
  do 6 step. rewrite app_nil_r. unfold runs at 1.
  fold failure. fold message.
  rewrite send_slack_notification_ok. step.
  split; [reflexivity|]. cbn [app]. rewrite app_nil_r. reflexivity.
Qed.

Lemma main_except_facts post e h week :
  py_getitem post "week" = inr week ->
  runs (main_except rt cfg w post e) h
    (fun r ev =>
       r = Raise (SystemExit 1)
       /\ Forall (fun x => only_slack x = true) ev
       /\ forall url, SLACK_WEBHOOK_URL cfg = Some url -> url <> EmptyString ->
          exists reply,
            In (Http Slack
                  (slack_request url
                     ("FAILED to post Week " ++ py_str rt week ++ ": "
                      ++ exn_str rt e) false) reply) ev).
Proof.
  intros Hw. unfold runs. rewrite (main_except_run post e h week Hw).
  cbn [fst snd].
  destruct (send_slack_notification_facts
              ("FAILED to post Week " ++ py_str rt week ++ ": " ++ exn_str rt e)
              false (h ++ [Log ERROR ("Failed to post: " ++ exn_str rt e)])%list)
    as (_ & Hs & _ & Hu).
  split; [reflexivity|]. split.
  - constructor; [reflexivity | exact Hs].
  - intros url Hc Hn. specialize (Hu url Hc Hn). cbv zeta in Hu.
    eexists. right. rewrite Hu. left. reflexivity.
Qed.


(** *** The calendar lookup *)

Lemma find_post_skip s pre rest :
  Forall (fun p => dict_lookup "date" p <> Some (JStr s)) pre ->
  find_post s (map JDict (pre ++ rest)) = find_post s (map JDict rest).
Proof.
  induction 1 as [|p pre Hp _ IH]; [reflexivity|].
  cbn [app map find_post py_get].
  destruct (dict_lookup "date" p) as [v|] eqn:E; cbn [eq_str]; [|exact IH].
  destruct v; try exact IH. cbn [eq_str].
  destruct (String.eqb_spec s0 s) as [->|_]; [contradiction | exact IH].
Qed.

Lemma find_post_none s entries :
  Forall (fun p => dict_lookup "date" p <> Some (JStr s)) entries ->
  find_post s (map JDict entries) = inr None.
Proof.
  intros H. rewrite <- (app_nil_r entries), find_post_skip by assumption.
  reflexivity.
Qed.

Lemma find_post_total s entries :
  exists found, find_post s (map JDict entries) = inr found.
Proof.
  induction entries as [|p entries IH]; cbn [map find_post py_get]; [eauto|].
  destruct (dict_lookup "date" p) as [v|]; cbn [eq_str]; [|exact IH].
  destruct (eq_str v s); eauto.
Qed.

(** C5. For every list of calendar entries and every target date,
    [get_todays_post] returns the first entry, in list order, whose
    [date] field is the ISO string of the target date; it returns [None],
    and raises nothing, when no entry has that date.  Without a target
    date it looks up today's. *)
Theorem get_todays_post_first_match
  (entries : list (list (string * json))) (d : date) :
  (forall pre post suf,
      entries = (pre ++ post :: suf)%list ->
      dict_lookup "date" post = Some (JStr (isoformat d)) ->
      Forall (fun p => dict_lookup "date" p <> Some (JStr (isoformat d))) pre ->
      get_todays_post w (map JDict entries) (Some d) = inr (Some (JDict post)))
  /\ (Forall (fun p => dict_lookup "date" p <> Some (JStr (isoformat d))) entries ->
      get_todays_post w (map JDict entries) (Some d) = inr None)
  /\ (exists found, get_todays_post w (map JDict entries) (Some d) = inr found)
  /\ get_todays_post w (map JDict entries) None
     = get_todays_post w (map JDict entries) (Some (w_today w)).
Proof.
  unfold get_todays_post. repeat split.
  - intros pre post suf -> Hpost Hpre.
    rewrite find_post_skip by assumption.
    cbn [map find_post py_get]. rewrite Hpost. cbn [eq_str].
    rewrite String.eqb_refl. reflexivity.
  - apply find_post_none.
  - apply find_post_total.
Qed.

(** *** Identity resolution *)

(** C7, as the code has it.  For every access token, [get_person_urn]
    makes one network call, a GET of the user-info endpoint with the
    token as bearer credential.  On any HTTP status other than 200 it
    raises an exception whose text carries the status code; the body of
    the response is written to the error log and is not part of the
    exception.  On status 200 it takes the [sub] field of the JSON object
    and returns [urn:li:person:<sub>]. *)
Theorem get_person_urn_contract (tok : option string) (h : trace) :
  let req := userinfo_request tok in
  let out := get_person_urn rt w tok h in
  (filter is_network_call (snd out) = [Http UserInfo req (w_requests w h req)]
   /\ req_method req = GET
   /\ req_url req = JStr "https://api.linkedin.com/v2/userinfo"
   /\ req_headers req = [("Authorization", "Bearer " ++ env_str tok)])
  /\ (forall resp,
        w_requests w h req = inr resp ->
        status_code resp <> 200 ->
        out = (Raise (Exception ("Failed to get LinkedIn user info: "
                                 ++ str_Z (status_code resp))),
               [Http UserInfo req (inr resp);
                Log ERROR ("Failed to get user info: " ++ resp_text resp)]))
  /\ (forall resp d id,
        w_requests w h req = inr resp ->
        status_code resp = 200 ->
        resp_json resp = inr (JDict d) ->
        dict_lookup "sub" d = Some id ->
        fst out = Ok ("urn:li:person:" ++ py_str rt id)).
Proof.
  cbv zeta. repeat split.
  - apply get_person_urn_calls.
  - intros resp Hreq Hst. apply get_person_urn_failed; assumption.
  - intros resp d id Hreq Hst Hjs Hsub.
    rewrite (get_person_urn_ok tok h resp d Hreq Hst Hjs), Hsub. reflexivity.
Qed.

(** C10. When the user-info call answers 200 with a JSON object,
    [get_person_urn] returns a string that starts with [urn:li:person:],
    whether or not the object has a [sub] field; without the field the
    result is [urn:li:person:None] and nothing is raised. *)
Theorem get_person_urn_missing_sub (tok : option string) (h : trace)
  (resp : response) (d : list (string * json)) :
  w_requests w h (userinfo_request tok) = inr resp ->
  status_code resp = 200 ->
  resp_json resp = inr (JDict d) ->
  (exists id_text,
      fst (get_person_urn rt w tok h) = Ok ("urn:li:person:" ++ id_text))
  /\ (dict_lookup "sub" d = None ->
      fst (get_person_urn rt w tok h) = Ok "urn:li:person:None").
Proof.
  intros Hreq Hst Hjs.
  rewrite (get_person_urn_ok tok h resp d Hreq Hst Hjs). cbn [fst]. split.
  - eexists. reflexivity.
  - intros ->. reflexivity.
Qed.

(** *** The notifier *)

(** C8. For every message and status flag, [send_slack_notification]
    returns normally.  When no webhook URL is configured it makes no call
    and writes nothing; when the call to the webhook fails, the failure
    is logged as a warning and goes no further. *)
Theorem send_slack_notification_never_raises
  (message : string) (success : bool) (h : trace) :
  let out := send_slack_notification rt cfg w message success h in
  fst out = Ok tt
  /\ (env_truthy (SLACK_WEBHOOK_URL cfg) = false -> snd out = [])
  /\ (forall url err,
        SLACK_WEBHOOK_URL cfg = Some url -> url <> EmptyString ->
        w_requests w h (slack_request url message success) = inl err ->
        snd out = [Http Slack (slack_request url message success) (inl err);
                   Log WARNING ("Failed to send Slack notification: "
                                ++ exn_str rt (LibraryError err))]).
Proof.
  cbv zeta.
  destruct (send_slack_notification_facts message success h)
    as (Hok & _ & Hnone & Hsome).
  repeat split; try assumption.
  intros url err Hc Hn Herr. specialize (Hsome url Hc Hn). cbv zeta in Hsome.
  rewrite Herr in Hsome. exact Hsome.
Qed.

(** *** Publishing *)

Lemma is_http_false_not_by c ev : is_http ev = false -> is_call_by c ev = false.
Proof. destruct ev as [| [] |], c; cbn; congruence. Qed.

Lemma no_call_not_by c ev : is_network_call ev = false -> is_call_by c ev = false.
Proof. destruct ev as [| [] |], c; cbn; congruence. Qed.

Lemma no_call_not_llm ev : is_network_call ev = false -> is_llm ev = false.
Proof. destruct ev; cbn; congruence. Qed.

Lemma not_in_by c req reply evs :
  Forall (fun e => is_call_by c e = false) evs -> ~ In (Http c req reply) evs.
Proof.
  intros F H. rewrite Forall_forall in F. apply F in H.
  destruct c; discriminate H.
Qed.

Lemma not_in_llm k req reply evs :
  Forall (fun e => is_llm e = false) evs -> ~ In (Llm k req reply) evs.
Proof.
  intros F H. rewrite Forall_forall in F. apply F in H. discriminate H.
Qed.

(** What a whole run of [main] guarantees about its trace. *)
Lemma main_facts args :
  runs (main rt cfg w args) []
    (fun r ev =>
       (forall key lreq content req reply,
           In (Llm key lreq (inr content)) ev ->
           In (Http CreatePost req reply) ev ->
           exists text asset person_urn,
             first_text content = inr text
             /\ req = post_request text asset (LINKEDIN_ACCESS_TOKEN cfg) person_urn)
       /\ (forall req resp,
              In (Http RegisterUpload req (inr resp)) ev ->
              status_code resp <> 200 ->
              r = Raise (SystemExit 1)
              /\ Forall (fun e => is_call_by CreatePost e = false) ev
              /\ exists d cal post week,
                  target_date rt w args = inr d
                  /\ w_calendar w = inr cal
                  /\ get_todays_post w cal (Some d) = inr (Some post)
                  /\ py_getitem post "week" = inr week
                  /\ forall url,
                      SLACK_WEBHOOK_URL cfg = Some url -> url <> EmptyString ->
                      exists reply,
                        In (Http Slack
                              (slack_request url
                                 ("FAILED to post Week " ++ py_str rt week
                                  ++ ": LinkedIn upload registration failed: "
                                  ++ str_Z (status_code resp)) false) reply) ev)).
Proof.
  unfold main. apply runs_bind.
  eapply runs_conseq; [apply main_generate_facts|]. cbv beta.
  intros r0 ev0 [F0 G0].
  assert (F0c : forall c, Forall (fun e => is_call_by c e = false) ev0)
    by (intros c; eapply Forall_impl; [|exact F0]; apply is_http_false_not_by).
  destruct r0 as [[post text]| |e0].
  2,3: split; [intros ? ? ? ? ? _ H | intros ? ? H];
       exfalso; revert H; apply not_in_by, F0c.
  destruct (G0 post text eq_refl)
    as [(d & cal & week & Hd & Hcal & Hfound & Hweek) Hllm]. clear G0.
  apply runs_bind.
  eapply runs_conseq; [apply main_image_path_facts|]. cbv beta.
  intros r1 ev1 [F1 G1].
  assert (F1c : forall c, Forall (fun e => is_call_by c e = false) ev1)
    by (intros c; eapply Forall_impl; [|exact F1]; apply no_call_not_by).
  assert (F1l : Forall (fun e => is_llm e = false) ev1)
    by (eapply Forall_impl; [|exact F1]; apply no_call_not_llm).
  destruct r1 as [path| |e1].
  2,3: split; [intros ? ? ? ? ? _ H | intros ? ? H];
       exfalso; apply in_app_or in H; destruct H as [H|H]; revert H;
       apply not_in_by; first [apply F0c | apply F1c].
  apply runs_try.
  eapply runs_conseq; [apply main_try_facts|]. cbv beta.
  intros r2 ev2 (E2 & L2 & C2 & R2).
  (* the facts, for whatever the handler appends *)
  assert (Key : forall ev3,
             Forall (fun x => only_slack x = true) ev3 ->
             forall key lreq content req reply,
               In (Llm key lreq (inr content)) (ev0 ++ ev1 ++ ev2 ++ ev3) ->
               In (Http CreatePost req reply) (ev0 ++ ev1 ++ ev2 ++ ev3) ->
               exists text asset person_urn,
                 first_text content = inr text
                 /\ req = post_request text asset (LINKEDIN_ACCESS_TOKEN cfg) person_urn).
  { intros ev3 S3 key lreq content req reply Hl Hc.
    assert (S3c : Forall (fun e => is_call_by CreatePost e = false) ev3)
      by (eapply Forall_impl; [|exact S3];
          intros ?; apply only_slack_not_by; discriminate).
    assert (S3l : Forall (fun e => is_llm e = false) ev3)
      by (eapply Forall_impl; [|exact S3]; apply only_slack_not_llm).
    rewrite !in_app_iff in Hl, Hc.
    destruct Hl as [Hl|[Hl|[Hl|Hl]]];
      try (exfalso; revert Hl; apply not_in_llm; assumption).
    destruct (Hllm _ _ _ Hl) as (content' & E & Ht). injection E as <-.
    destruct Hc as [Hc|[Hc|[Hc|Hc]]];
      try (exfalso; revert Hc; apply not_in_by;
           first [apply F0c | apply F1c | assumption]).
    destruct (C2 _ _ Hc) as (asset & urn & ->). eauto. }
  assert (Reg : forall ev3 req resp,
             Forall (fun x => only_slack x = true) ev3 ->
             In (Http RegisterUpload req (inr resp)) (ev0 ++ ev1 ++ ev2 ++ ev3) ->
             In (Http RegisterUpload req (inr resp)) ev2).
  { intros ev3 req resp S3 H.
    assert (S3c : Forall (fun e => is_call_by RegisterUpload e = false) ev3)
      by (eapply Forall_impl; [|exact S3];
          intros ?; apply only_slack_not_by; discriminate).
    rewrite !in_app_iff in H.
    destruct H as [H|[H|[H|H]]]; try assumption;
      exfalso; revert H; apply not_in_by;
      first [apply F0c | apply F1c | assumption]. }
  destruct r2 as [u| |e2].
  1,2: split;
       [ intros key lreq content req reply Hl Hc;
         apply (Key [] (Forall_nil _) key lreq content req reply);
         rewrite app_nil_r; assumption
       | intros req resp H Hst;
         assert (H2 : In (Http RegisterUpload req (inr resp)) ev2)
           by (apply (Reg []); [constructor | rewrite app_nil_r; exact H]);
         destruct (R2 _ _ H2 Hst) as [[=] _] ].
  rewrite (E2 e2 eq_refl).
  eapply runs_conseq; [apply (main_except_facts post e2 _ week Hweek)|]. cbv beta.
  intros r3 ev3 (-> & S3 & N3). split.
  - apply Key, S3.
  - intros req resp H Hst.
    destruct (R2 _ _ (Reg ev3 req resp S3 H) Hst) as ([= ->] & NC & NS).
    split; [reflexivity|]. split.
    + repeat (apply Forall_app; split);
        first [apply F0c | apply F1c | assumption | idtac].
      eapply Forall_impl; [|exact S3]. intros ?; apply only_slack_not_by; discriminate.
    + exists d, cal, post, week. repeat (split; [assumption|]).
      intros url Hc Hn. destruct (N3 url Hc Hn) as (reply & Hin).
      exists reply. rewrite !in_app_iff. auto.
Qed.

(** C9. [create_linkedin_post] puts its text, whole and unchanged, in
    the [commentary] field of the request to the posts endpoint, for a
    text of any length: [MAX_POST_LENGTH] is 3000 and is consulted
    nowhere.  In a run of [main] that text is the one the language model
    returned: every request to the posts endpoint carries the text of
    the first block of the model's answer. *)
Theorem post_text_published_verbatim :
  MAX_POST_LENGTH = 3000
  /\ (forall text asset tok person_urn h,
         exists reply rest,
           snd (create_linkedin_post w text asset tok person_urn h)
           = Log INFO "Creating LinkedIn post..."
             :: Http CreatePost (post_request text asset tok person_urn) reply
             :: rest
           /\ req_body (post_request text asset tok person_urn)
              = JsonBody (post_payload text asset person_urn)
           /\ py_getitem (post_payload text asset person_urn) "commentary"
              = inr (JStr text))
  /\ (forall args key lreq content req reply,
         In (Llm key lreq (inr content)) (snd (run rt cfg w args)) ->
         In (Http CreatePost req reply) (snd (run rt cfg w args)) ->
         exists text payload,
           first_text content = inr text
           /\ req_body req = JsonBody payload
           /\ py_getitem payload "commentary" = inr (JStr text)).
Proof.
  split; [reflexivity|]. split.
  - intros text asset tok person_urn h.
    apply (runs_elim (create_linkedin_post w text asset tok person_urn) h
             (fun _ ev => exists reply rest, ev = _ :: Http _ _ reply :: rest /\ _)).
    unfold create_linkedin_post.
    repeat step; cbn [app]; eexists _, _; (split; [reflexivity|]);
      split; reflexivity.
  - intros args key lreq content req reply Hl Hc.
    destruct (proj1 (main_facts args) key lreq content req reply Hl Hc)
      as (text & asset & person_urn & Ht & ->).
    exists text, (post_payload text asset person_urn).
    repeat split; assumption.
Qed.

(** C2. In every run in which the upload-registration call returns an
    HTTP status other than 200, no call to the posts endpoint is made and
    the process exits with status 1; if a webhook URL is configured, a
    call to the webhook is made: a POST to that URL whose JSON payload
    has, as its [text], the failure message with the week of the calendar
    entry of the target date. *)
Theorem registration_failure_stops_the_run
  (args : Args) (req : request) (resp : response) :
  In (Http RegisterUpload req (inr resp)) (snd (run rt cfg w args)) ->
  status_code resp <> 200 ->
  Forall (fun ev => is_call_by CreatePost ev = false) (snd (run rt cfg w args))
  /\ exit_status (fst (run rt cfg w args)) = 1
  /\ exists d cal post week,
      target_date rt w args = inr d
      /\ w_calendar w = inr cal
      /\ get_todays_post w cal (Some d) = inr (Some post)
      /\ py_getitem post "week" = inr week
      /\ forall url,
          SLACK_WEBHOOK_URL cfg = Some url -> url <> EmptyString ->
          exists notice reply,
            In (Http Slack notice reply) (snd (run rt cfg w args))
            /\ notice
               = slack_request url
                   ("FAILED to post Week " ++ py_str rt week
                    ++ ": LinkedIn upload registration failed: "
                    ++ str_Z (status_code resp)) false
            /\ req_method notice = POST
            /\ req_url notice = JStr url
            /\ req_body notice
               = JsonBody
                   (JDict
                      [("text",
                        JStr ("❌ FAILED to post Week " ++ py_str rt week
                              ++ ": LinkedIn upload registration failed: "
                              ++ str_Z (status_code resp)));
                       ("username", JStr "Bioscope LinkedIn Bot")]).
Proof.
  intros Hin Hst.
  destruct (proj2 (main_facts args) req resp Hin Hst)
    as (Hr & Hc & d & cal & post & week & Hd & Hcal & Hfound & Hweek & Hw).
  split; [exact Hc|]. split; [unfold run; rewrite Hr; reflexivity|].
  exists d, cal, post, week.
  split; [exact Hd|]. split; [exact Hcal|]. split; [exact Hfound|].
  split; [exact Hweek|].
  intros url Hurl Hn. destruct (Hw url Hurl Hn) as (reply & Hslack).
  eexists _, reply. split; [exact Hslack|].
  split; [reflexivity|]. split; [reflexivity|]. split; reflexivity.
Qed.

(** *** The gates of [main] *)

(** C3. For every target date whose weekday name is not a key of
    [POSTING_DAYS], a run without [--force] returns from [main] at once:
    the process exits with status 0 and has made no network call. *)
Theorem unscheduled_day_exits_quietly (args : Args) (d : date) :
  target_date rt w args = inr d ->
  dict_mem (lower (strftime_A d)) POSTING_DAYS = false ->
  force args = false ->
  fst (run rt cfg w args) = Return
  /\ exit_status (fst (run rt cfg w args)) = 0
  /\ Forall (fun ev => is_network_call ev = false) (snd (run rt cfg w args)).
Proof.
  intros Hd Hday Hforce.
  apply (runs_elim (main rt cfg w args) []
           (fun r ev => r = Return /\ exit_status r = 0 /\ Forall _ ev)).
  unfold main, main_generate.
  do 4 step. rewrite Hday, Hforce. repeat step.
  trace_tac; reflexivity.
Qed.

(** C6. On a scheduled or forced day, a run without the language-model
    key, or a run that is not a dry run without the LinkedIn token, exits
    with status 1 and makes no network call.  A dry run does not need
    the token: whatever the token is, the run is the same. *)
Theorem credentials_checked_before_any_call (args : Args) (d : date) :
  target_date rt w args = inr d ->
  dict_mem (lower (strftime_A d)) POSTING_DAYS || force args = true ->
  (env_truthy (ANTHROPIC_API_KEY cfg) = false
   \/ (dry_run args = false /\ env_truthy (LINKEDIN_ACCESS_TOKEN cfg) = false) ->
   exit_status (fst (run rt cfg w args)) = 1
   /\ Forall (fun ev => is_network_call ev = false) (snd (run rt cfg w args)))
  /\ (dry_run args = true ->
      forall tok, run rt (set_token cfg tok) w args = run rt cfg w args).
Proof.
  intros Hd Hday. split.
  - intros Hcred.
    assert (Hgate : negb (dict_mem (lower (strftime_A d)) POSTING_DAYS)
                    && negb (force args) = false)
      by (destruct (dict_mem _ _), (force args); cbn in *; congruence).
    apply (runs_elim (main rt cfg w args) []
             (fun r ev => exit_status r = 1 /\ Forall _ ev)).
    unfold main, main_generate.
    destruct Hcred as [Hkey | [Hdry Htok]].
    + rewrite Hkey. repeat step. all: trace_tac; reflexivity.
    + rewrite Hdry, Htok. repeat step. trace_tac; reflexivity.
  - intros Hdry tok. unfold run, main. cbn [bind Monad_M]. unfold bindM.
    replace (main_generate rt (set_token cfg tok) w args [])
      with (main_generate rt cfg w args [])
      by (unfold main_generate; rewrite Hdry; reflexivity).
    destruct (main_generate rt cfg w args []) as [[[post text]| |e] ev];
      try reflexivity.
    rewrite !main_image_path_dry by assumption. reflexivity.
Qed.

(** C4. In every run with [--dry-run], whatever the calendar holds, no
    HTTP call is made: not the identity call, not the upload, not the
    publish call, not the webhook.  Once the text is generated the run
    logs that it is a dry run and returns. *)
Theorem dry_run_stops_before_posting (args : Args) :
  dry_run args = true ->
  Forall (fun ev => is_http ev = false) (snd (run rt cfg w args))
  /\ (forall post post_text ev,
         main_generate rt cfg w args [] = (Ok (post, post_text), ev) ->
         run rt cfg w args
         = (Return, (ev ++ [Log INFO "DRY RUN - Not posting to LinkedIn"])%list)).
Proof.
  intros Hdry. split.
  - apply (runs_elim (main rt cfg w args) [] (fun _ ev => Forall _ ev)).
    unfold main. apply runs_bind.
    eapply runs_conseq; [apply main_generate_facts|]. cbv beta.
    intros r ev [F _]. destruct r as [[post text]| |e]; try exact F.
    apply runs_bind. unfold runs.
    rewrite main_image_path_dry by assumption. cbn [fst snd].
    apply Forall_app. split; [exact F|]. repeat constructor.
  - intros post post_text ev G. unfold run, main.
    cbn [bind Monad_M]. unfold bindM. rewrite G.
    rewrite main_image_path_dry by assumption. reflexivity.
Qed.

(** *** Failures after the text is generated *)

Lemma main_image_path_invalid c args post h v :
  dry_run args = false ->
  py_get post "image_file" JNull = inr v ->
  py_truthy v = false
  \/ (exists name, v = JStr name
                   /\ w_exists w (rt_path_join rt (IMAGES_DIR c) name) = false) ->
  exists msg,
    main_image_path rt c w args post h = (Raise (SystemExit 1), [Log ERROR msg]).
Proof.
  intros Hdry Hget Hbad. unfold main_image_path.
  destruct Hbad as [Ht | (name & -> & Hex)].
  - apply (f_equal negb) in Ht. cbn [negb] in Ht.
    eexists. apply runs_eq. repeat step. split; reflexivity.
  - apply (f_equal negb) in Hex. cbn [negb] in Hex.
    destruct (negb (py_truthy (JStr name))) eqn:Ht.
    + eexists. apply runs_eq. repeat step. split; reflexivity.
    + eexists. apply runs_eq. repeat step. split; reflexivity.
Qed.

(** C1, as the code has it.  In a run that is not a dry run and has
    generated the post text: an exception raised by identity resolution,
    by the upload or by the publish call is caught by the one handler of
    [main], which logs it, calls the notifier with a failure message
    made of the week number and the text of the exception, and exits with
    status 1.  A failed check of the image path (no [image_file] in the
    entry, or no such file) is logged and exits with status 1 as well,
    but happens before the handler is in place: the notifier is not
    called. *)
Theorem publish_failures_reported
  (args : Args) (post : json) (post_text : string) (ev0 : trace) :
  dry_run args = false ->
  main_generate rt cfg w args [] = (Ok (post, post_text), ev0) ->
  (forall v,
      py_get post "image_file" JNull = inr v ->
      py_truthy v = false
      \/ (exists name, v = JStr name
                       /\ w_exists w (rt_path_join rt (IMAGES_DIR cfg) name) = false) ->
      exists msg,
        run rt cfg w args = (Raise (SystemExit 1), (ev0 ++ [Log ERROR msg])%list)
        /\ Forall (fun ev => is_call_by Slack ev = false)
             (ev0 ++ [Log ERROR msg])%list)
  /\ (forall image_path evp e ev1,
         main_image_path rt cfg w args post ev0 = (Ok image_path, evp) ->
         main_try rt cfg w post post_text image_path (ev0 ++ evp)%list = (Raise e, ev1) ->
         exists week,
           py_getitem post "week" = inr week
           /\ let failure := Log ERROR ("Failed to post: " ++ exn_str rt e) in
              let message :=
                "FAILED to post Week " ++ py_str rt week ++ ": " ++ exn_str rt e in
              run rt cfg w args
              = (Raise (SystemExit 1),
                 (ev0 ++ evp ++ ev1
                  ++ failure
                     :: snd (send_slack_notification rt cfg w message false
                               (ev0 ++ evp ++ ev1 ++ [failure])))%list)
              /\ exit_status (fst (run rt cfg w args)) = 1).
Proof.
  intros Hdry G.
  pose proof (main_generate_facts args []) as F. unfold runs in F.
  rewrite G in F. cbn [fst snd] in F. destruct F as [F0 G0].
  destruct (G0 post post_text eq_refl) as [(d & cal & week & _ & _ & _ & Hweek) _].
  split.
  - intros v Hget Hbad.
    destruct (main_image_path_invalid cfg args post ev0 v Hdry Hget Hbad)
      as (msg & Himg).
    exists msg. split.
    + unfold run, main. cbn [bind Monad_M]. unfold bindM. rewrite G.
      cbn [app]. rewrite Himg. reflexivity.
    + apply Forall_app. split.
      * eapply Forall_impl; [|exact F0]. intros ?. apply is_http_false_not_by.
      * repeat constructor.
  - intros image_path evp e ev1 Himg Htry.
    pose proof (main_try_facts post post_text image_path (ev0 ++ evp)%list) as T.
    unfold runs in T. rewrite Htry in T. cbn [fst snd] in T.
    destruct T as (E & _). specialize (E e eq_refl).
    exists week. split; [exact Hweek|]. cbv zeta.
    assert (Hrun : run rt cfg w args
                   = (Raise (SystemExit 1),
                      (ev0 ++ evp ++ ev1
                       ++ Log ERROR ("Failed to post: " ++ exn_str rt e)
                          :: snd (send_slack_notification rt cfg w
                                    ("FAILED to post Week " ++ py_str rt week
                                     ++ ": " ++ exn_str rt e) false
                                    (ev0 ++ evp ++ ev1
                                     ++ [Log ERROR ("Failed to post: "
                                                    ++ exn_str rt e)])))%list)).
    { unfold run, main. cbn [bind Monad_M]. unfold bindM. rewrite G.
      cbn [app]. rewrite Himg. unfold try_except. rewrite Htry, E.
      rewrite (main_except_run post e _ week Hweek). cbv zeta.
      rewrite <- !app_assoc. reflexivity. }
    split; [exact Hrun|]. rewrite Hrun. reflexivity.
Qed.

End Properties.

(** * The order of the calls, and the rest of the script *)

(** ** The protocol of a run *)

Lemma protocol_app tr1 : forall s tr2,
  protocol s (tr1 ++ tr2)%list
  = match protocol s tr1 with
    | Some s' => protocol s' tr2
    | None => None
    end.
Proof.
  induction tr1 as [|ev tr1 IH]; intros s tr2; cbn [app protocol]; [reflexivity|].
  destruct (advance s ev); [apply IH | reflexivity].
Qed.

Lemma protocol_quiet tr : forall s,
  Forall (fun ev => is_network_call ev = false) tr -> protocol s tr = Some s.
Proof.
  induction tr as [|ev tr IH]; intros s F; [reflexivity|].
  inversion F as [|? ? Hev Htr]; subst.
  destruct ev; try discriminate Hev. cbn [protocol advance]. apply IH, Htr.
Qed.

Lemma advance_rank s ev s' : advance s ev = Some s' -> (rank s <= rank s')%nat.
Proof.
  destruct ev as [lvl msg | c req reply | k req reply]; cbn [advance].
  - intros [= <-]. lia.
  - destruct c, s; try discriminate; cbv zeta;
      try match goal with
          | |- context [accepted ?c ?r] => destruct (accepted c r)
          end;
      intros [= <-]; cbn; lia.
  - destruct s; try discriminate. destruct reply; intros [= <-]; cbn; lia.
Qed.

(** A call by [c] leaves the stages it can start from. *)
Lemma advance_call c s req reply s' :
  advance s (Http c req reply) = Some s' ->
  (rank s <= last_rank c < rank s')%nat.
Proof.
  cbn [advance].
  destruct c, s; try discriminate; cbv zeta;
    try match goal with
        | |- context [accepted ?c ?r] => destruct (accepted c r)
        end;
    intros [= <-]; cbn; lia.
Qed.

Lemma protocol_calls_once c tr : forall s s',
  protocol s tr = Some s' ->
  (List.length (filter (is_call_by c) tr)
   <= if (rank s <=? last_rank c)%nat then 1 else 0)%nat.
Proof.
  induction tr as [|ev tr IH]; intros s s' H; cbn [filter List.length]; [lia|].
  cbn [protocol] in H. destruct (advance s ev) as [s1|] eqn:A; [|discriminate].
  specialize (IH s1 s' H). pose proof (advance_rank s ev s1 A) as R.
  destruct (is_call_by c ev) eqn:B.
  - assert (exists req reply, ev = Http c req reply) as (req & reply & ->).
    { destruct ev as [| c' req reply |]; try discriminate B.
      destruct c', c; try discriminate B; eauto. }
    apply advance_call in A. cbn [List.length].
    destruct (Nat.leb_spec (rank s) (last_rank c)),
             (Nat.leb_spec (rank s1) (last_rank c)); lia.
  - destruct (Nat.leb_spec (rank s) (last_rank c)),
             (Nat.leb_spec (rank s1) (last_rank c)); lia.
Qed.

Lemma protocol_model_once tr : forall s s',
  protocol s tr = Some s' ->
  (List.length (filter is_llm tr) <= if (rank s <=? 0)%nat then 1 else 0)%nat.
Proof.
  induction tr as [|ev tr IH]; intros s s' H; cbn [filter List.length]; [lia|].
  cbn [protocol] in H. destruct (advance s ev) as [s1|] eqn:A; [|discriminate].
  specialize (IH s1 s' H). pose proof (advance_rank s ev s1 A) as R.
  destruct ev as [lvl msg | c req reply | k req reply]; cbn [is_llm List.length].
  - destruct (Nat.leb_spec (rank s) 0), (Nat.leb_spec (rank s1) 0); lia.
  - destruct (Nat.leb_spec (rank s) 0), (Nat.leb_spec (rank s1) 0); lia.
  - cbn [advance] in A. destruct s; try discriminate A.
    destruct reply; injection A as <-; cbn in *; lia.
Qed.

Ltac bool_hyps :=
  repeat match goal with
  | H : negb _ = true |- _ => apply negb_true_iff in H
  | H : negb _ = false |- _ => apply negb_false_iff in H
  end.

(** Decide the stage a known trace leads to. *)
Ltac protocol_tac :=
  bool_hyps;
  cbn [app protocol advance accepted];
  repeat match goal with
  | H : ?b = true |- context [?b] => rewrite H
  | H : ?b = false |- context [?b] => rewrite H
  end;
  cbn [protocol advance accepted].

Lemma find_post_raises s cal e :
  find_post s cal = inl e -> is_Exception e = true.
Proof.
  induction cal as [|post cal IH]; cbn [find_post]; [discriminate|].
  destruct (py_get post "date" JNull) as [e'|v] eqn:G.
  - intros [= <-]. eapply py_get_raises; eassumption.
  - destruct (eq_str v s); [discriminate | exact IH].
Qed.

Lemma get_todays_post_raises w cal d e :
  get_todays_post w cal d = inl e -> is_Exception e = true.
Proof. apply find_post_raises. Qed.

Lemma first_text_raises content e :
  first_text content = inl e -> is_Exception e = true.
Proof.
  destruct content as [|[s|ty] content]; cbn; intros [= <-]; reflexivity.
Qed.

#[local] Hint Resolve py_get_raises py_getitem_raises py_getitems_raises
  get_todays_post_raises first_text_raises : raises.

(** An exception of the script that would be a [SystemExit]: its code. *)
Ltac exit_code_tac :=
  match goal with
  | H : Raise _ = Raise (SystemExit _) |- _ =>
      first [ congruence
            | injection H as H; subst;
              match goal with
              | G : _ = inl (SystemExit ?c) |- _ =>
                  assert (X : is_Exception (SystemExit c) = true)
                    by (eauto with raises);
                  discriminate X
              end ]
  end.

Section Protocol.
Variable rt : Runtime.
Variable cfg : Config.
Variable w : World.

Lemma protocol_send_slack msg success h s :
  handler_stage s = true ->
  exists s',
    protocol s (snd (send_slack_notification rt cfg w msg success h)) = Some s'
    /\ (s = Published -> s' = Published \/ s' = Ended true).
Proof.
  intros Hs.
  apply (runs_elim (send_slack_notification rt cfg w msg success) h
           (fun _ ev => exists s', protocol s ev = Some s' /\ _)).
  unfold send_slack_notification.
  repeat step; cbn [app protocol advance];
    destruct s; try discriminate Hs; eexists; (split; [reflexivity|]);
    intros; try discriminate; auto.
Qed.

(** Up to the generated text: at most the call to the model; a process
    exit is with status 1; a failure of the model is not handled. *)
Lemma main_generate_protocol args h :
  runs (main_generate rt cfg w args) h
    (fun r ev =>
       (exists s, protocol Start ev = Some s
                  /\ (forall p, r = Ok p -> s = Generated))
       /\ (forall code, r = Raise (SystemExit code) -> code = 1)
       /\ (forall k req err,
              In (Llm k req (inl err)) ev -> r = Raise (LibraryError err))).
Proof.
  unfold main_generate, generate_post_text, load_calendar, load_system_prompt.
  repeat step; cbn [app]; (split; [|split]).
  all: try (eexists; split; [reflexivity|]; intros; try discriminate;
            reflexivity).
  all: trace_tac.
  all: try exit_code_tac.
  all: congruence.
Qed.

(** The checks of the image path end the process with status 1 only. *)
Lemma main_image_path_exit args post h :
  runs (main_image_path rt cfg w args post) h
    (fun r ev => forall code, r = Raise (SystemExit code) -> code = 1).
Proof.
  unfold main_image_path.
  repeat step; intros; try discriminate; try exit_code_tac.
Qed.

(** The body of the [try], call by call. *)
Lemma main_try_protocol post post_text image_path h :
  runs (main_try rt cfg w post post_text image_path) h
    (fun r ev =>
       exists s,
         protocol Generated ev = Some s
         /\ (forall e, r = Raise e -> handler_stage s = true)
         /\ (forall u, r = Ok u -> s = Published \/ s = Ended true)
         /\ (r <> Return)).
Proof.
  unfold main_try, get_person_urn, upload_image_to_linkedin, create_linkedin_post,
    send_slack_notification.
  repeat step.
  all: eexists; split; [protocol_tac; reflexivity|].
  all: repeat split; intros; try discriminate; try reflexivity; auto.
Qed.

Lemma runs_and {A} (m : M A) h (P Q : res A -> trace -> Prop) :
  runs m h P -> runs m h Q -> runs m h (fun r ev => P r ev /\ Q r ev).
Proof. unfold runs. auto. Qed.

(** A whole run, call by call. *)
Lemma main_protocol args :
  runs (main rt cfg w args) []
    (fun r ev =>
       exists s,
         protocol Start ev = Some s
         /\ (forall u, r = Ok u -> s = Published \/ s = Ended true)
         /\ (forall code, r = Raise (SystemExit code) -> code = 1)).
Proof.
  unfold main. apply runs_bind.
  eapply runs_conseq;
    [apply runs_and; [apply main_generate_facts | apply main_generate_protocol]|].
  cbv beta. intros r0 ev0 ((_ & G0) & (s0 & P0 & S0) & X0 & _).
  destruct r0 as [[post text]| |e0].
  2,3: exists s0; (split; [exact P0|]); (split; [intros; congruence
        | intros code H;
          first [discriminate H | injection H as ->; apply (X0 code eq_refl)]]).
  destruct (G0 post text eq_refl) as [(d & cal & week & _ & _ & _ & Hweek) _].
  rewrite (S0 _ eq_refl) in P0. clear G0 S0 X0 s0.
  apply runs_bind.
  eapply runs_conseq;
    [apply runs_and; [apply main_image_path_facts | apply main_image_path_exit]|].
  cbv beta. intros r1 ev1 ((F1 & _) & X1).
  assert (P1 : protocol Start (ev0 ++ ev1)%list = Some Generated)
    by (rewrite protocol_app, P0; apply protocol_quiet, F1).
  destruct r1 as [path| |e1].
  2,3: exists Generated; (split; [exact P1|]); (split; [intros; congruence
        | intros code H;
          first [discriminate H | injection H as ->; apply (X1 code eq_refl)]]).
  apply runs_try.
  eapply runs_conseq;
    [apply runs_and; [apply main_try_facts | apply main_try_protocol]|].
  cbv beta. intros r2 ev2 ((E2 & _) & s2 & P2 & H2 & O2 & N2).
  assert (P02 : protocol Start (ev0 ++ ev1 ++ ev2)%list = Some s2)
    by (rewrite app_assoc, protocol_app, P1; exact P2).
  destruct r2 as [u| |e2].
  - exists s2. split; [exact P02|]. split; [intros ? _; apply (O2 u eq_refl) | intros; congruence].
  - contradiction.
  - assert (K : forall tr, protocol Start (ev0 ++ ev1 ++ ev2 ++ tr)%list
                          = protocol s2 tr).
    { intros tr.
      replace (ev0 ++ ev1 ++ ev2 ++ tr)%list with ((ev0 ++ ev1 ++ ev2) ++ tr)%list
        by (rewrite <- !app_assoc; reflexivity).
      rewrite protocol_app, P02. reflexivity. }
    rewrite (E2 e2 eq_refl). unfold runs.
    rewrite (main_except_run rt cfg w post e2 _ week Hweek). cbv zeta.
    cbn [fst snd]. rewrite K. cbn [protocol advance].
    match goal with
    | |- context [send_slack_notification rt cfg w ?msg false ?h0] =>
        destruct (protocol_send_slack msg false h0 s2 (H2 e2 eq_refl))
          as (s3 & P3 & _)
    end.
    exists s3. split; [exact P3 | split; intros; congruence].
Qed.

(** The body of the [try], outcome by outcome. *)
Lemma main_try_outcomes post post_text image_path h :
  runs (main_try rt cfg w post post_text image_path) h
    (fun r ev =>
       (forall c req reply,
           In (Http c req reply) ev -> c <> Slack -> accepted c reply = false ->
           r = Raise (refusal c reply))
       /\ (forall req resp err,
              In (Http CreatePost req (inr resp)) ev ->
              accepted CreatePost (inr resp) = true ->
              resp_json resp = inl err ->
              r = Raise (LibraryError err))
       /\ (env_truthy (SLACK_WEBHOOK_URL cfg) = false ->
           Forall (fun e => is_call_by Slack e = false) ev)
       /\ (forall u, r = Ok u ->
           exists week post_type title,
             py_getitem post "week" = inr week
             /\ py_getitem post "post_type" = inr post_type
             /\ py_get post "title" (JStr "Untitled") = inr title
             /\ In (Log INFO ("Successfully posted: Week " ++ py_str rt week ++ " "
                              ++ py_str rt post_type)) ev
             /\ forall url,
                 SLACK_WEBHOOK_URL cfg = Some url -> url <> EmptyString ->
                 exists reply,
                   In (Http Slack
                         (slack_request url
                            ("Posted Week " ++ py_str rt week ++ " "
                             ++ py_str rt post_type ++ ": " ++ py_str rt title)
                            true) reply) ev)).
Proof.
  unfold main_try, get_person_urn, upload_image_to_linkedin, create_linkedin_post.
  repeat step.
  all: try (eapply runs_conseq; [apply send_slack_notification_facts|];
            cbv beta; intros ? evs (-> & Hs & Hnone & Hsome)).
  all: bool_hyps; cbn [app]; repeat split.
  all: lazymatch goal with
       | |- forall c req reply, In (Http c req reply) _ -> _ =>
           (* a refused call *)
           intros c req0 reply0 Hin Hc Hacc; break_in Hin;
           try (injection Hin as <- <- <-);
           first [ solve [reflexivity]
                 | solve [exfalso; cbn [accepted] in Hacc; congruence]
                 | exfalso; rewrite Forall_forall in Hs; apply Hs in Hin;
                   destruct c; try discriminate Hin; apply Hc; reflexivity ]
       | |- forall req resp err, In (Http CreatePost req (inr resp)) _ -> _ =>
           (* a reply of the posts endpoint that cannot be read *)
           intros req0 resp0 err0 Hin Hacc Hjs; break_in Hin;
           try (injection Hin as <- <-);
           first [ congruence
                 | solve [exfalso; cbn [accepted] in Hacc; congruence]
                 | exfalso; rewrite Forall_forall in Hs; apply Hs in Hin;
                   discriminate Hin ]
       | |- env_truthy _ = false -> _ =>
           intros Hno; repeat (apply Forall_cons; [reflexivity|]);
           first [ apply Forall_nil | rewrite (Hnone Hno); apply Forall_nil ]
       | |- forall u, _ = Ok u -> _ =>
           intros u Hu; try discriminate Hu;
           eexists _, _, _; repeat (split; [reflexivity|]);
           (split; [in_list|]);
           intros url Hurl Hn; specialize (Hsome url Hurl Hn); cbv zeta in Hsome;
           rewrite Hsome; eexists; in_list
       end.
Qed.

(** The [except] clause: what it appends. *)
Lemma main_except_outcome post e h week :
  py_getitem post "week" = inr week ->
  exists evs,
    main_except rt cfg w post e h
    = (Raise (SystemExit 1),
       Log ERROR ("Failed to post: " ++ exn_str rt e) :: evs)
    /\ Forall (fun x => only_slack x = true) evs
    /\ (env_truthy (SLACK_WEBHOOK_URL cfg) = false -> evs = [])
    /\ (forall url,
           SLACK_WEBHOOK_URL cfg = Some url -> url <> EmptyString ->
           exists reply,
             In (Http Slack
                   (slack_request url
                      ("FAILED to post Week " ++ py_str rt week ++ ": "
                       ++ exn_str rt e) false) reply) evs).
Proof.
  intros Hweek. rewrite (main_except_run rt cfg w post e h week Hweek). cbv zeta.
  eexists. split; [reflexivity|].
  destruct (send_slack_notification_facts rt cfg w
              ("FAILED to post Week " ++ py_str rt week ++ ": " ++ exn_str rt e)
              false (h ++ [Log ERROR ("Failed to post: " ++ exn_str rt e)])%list)
    as (_ & Hs & Hnone & Hsome).
  split; [exact Hs|]. split; [exact Hnone|].
  intros url Hurl Hn. specialize (Hsome url Hurl Hn). cbv zeta in Hsome.
  rewrite Hsome. eexists. left. reflexivity.
Qed.

(** A whole run, outcome by outcome. *)
Lemma main_outcomes args :
  runs (main rt cfg w args) []
    (fun r ev =>
       (forall c req reply,
           In (Http c req reply) ev -> c <> Slack -> accepted c reply = false ->
           r = Raise (SystemExit 1)
           /\ exists post week,
               (exists d cal,
                   target_date rt w args = inr d /\ w_calendar w = inr cal
                   /\ get_todays_post w cal (Some d) = inr (Some post))
               /\ py_getitem post "week" = inr week
               /\ In (Log ERROR ("Failed to post: "
                                 ++ exn_str rt (refusal c reply))) ev
               /\ forall url,
                   SLACK_WEBHOOK_URL cfg = Some url -> url <> EmptyString ->
                   exists reply',
                     In (Http Slack
                           (slack_request url
                              ("FAILED to post Week " ++ py_str rt week ++ ": "
                               ++ exn_str rt (refusal c reply)) false) reply') ev)
       /\ (forall req resp err,
              In (Http CreatePost req (inr resp)) ev ->
              accepted CreatePost (inr resp) = true ->
              resp_json resp = inl err ->
              r = Raise (SystemExit 1)
              /\ In (Log ERROR ("Failed to post: " ++ err_msg err)) ev)
       /\ (env_truthy (SLACK_WEBHOOK_URL cfg) = false ->
           Forall (fun e => is_call_by Slack e = false) ev)
       /\ (forall u, r = Ok u ->
           exists post week post_type title,
             (exists d cal,
                 target_date rt w args = inr d /\ w_calendar w = inr cal
                 /\ get_todays_post w cal (Some d) = inr (Some post))
             /\ py_getitem post "week" = inr week
             /\ py_getitem post "post_type" = inr post_type
             /\ py_get post "title" (JStr "Untitled") = inr title
             /\ In (Log INFO ("Successfully posted: Week " ++ py_str rt week ++ " "
                              ++ py_str rt post_type)) ev
             /\ forall url,
                 SLACK_WEBHOOK_URL cfg = Some url -> url <> EmptyString ->
                 exists reply,
                   In (Http Slack
                         (slack_request url
                            ("Posted Week " ++ py_str rt week ++ " "
                             ++ py_str rt post_type ++ ": " ++ py_str rt title)
                            true) reply) ev)
       /\ (forall k req err,
              In (Llm k req (inl err)) ev ->
              r = Raise (LibraryError err)
              /\ Forall (fun e => is_http e = false) ev)).
Proof.
  unfold main. apply runs_bind.
  eapply runs_conseq;
    [apply runs_and; [apply main_generate_facts | apply main_generate_protocol]|].
  cbv beta. intros r0 ev0 ((F0 & G0) & _ & _ & L0).
  assert (F0c : forall c, Forall (fun e => is_call_by c e = false) ev0)
    by (intros c; eapply Forall_impl; [|exact F0]; apply is_http_false_not_by).
  destruct r0 as [[post text]| |e0].
  2,3: (split; [|split; [|split; [|split]]]);
       [ intros c req reply Hin; exfalso; revert Hin; apply not_in_by, F0c
       | intros req resp err Hin; exfalso; revert Hin; apply not_in_by, F0c
       | intros _; apply F0c
       | intros u Hu; discriminate Hu
       | intros k req err Hin; specialize (L0 k req err Hin);
         split; [congruence | exact F0] ].
  destruct (G0 post text eq_refl)
    as [(d & cal & week & Hd & Hcal & Hfound & Hweek) Hllm]. clear G0.
  assert (Hentry : exists d cal,
             target_date rt w args = inr d /\ w_calendar w = inr cal
             /\ get_todays_post w cal (Some d) = inr (Some post))
    by eauto.
  assert (L0' : forall k req err, ~ In (Llm k req (inl err)) ev0)
    by (intros k req err Hin; specialize (L0 k req err Hin); discriminate L0).
  apply runs_bind.
  eapply runs_conseq; [apply main_image_path_facts|]. cbv beta.
  intros r1 ev1 [F1 _].
  assert (F1c : forall c, Forall (fun e => is_call_by c e = false) ev1)
    by (intros c; eapply Forall_impl; [|exact F1]; apply no_call_not_by).
  assert (F1l : Forall (fun e => is_llm e = false) ev1)
    by (eapply Forall_impl; [|exact F1]; apply no_call_not_llm).
  assert (F01c : forall c, Forall (fun e => is_call_by c e = false) (ev0 ++ ev1)%list)
    by (intros c; apply Forall_app; split; [apply F0c | apply F1c]).
  assert (L01 : forall k req err, ~ In (Llm k req (inl err)) (ev0 ++ ev1)%list).
  { intros k req err Hin. apply in_app_or in Hin. destruct Hin as [Hin|Hin].
    - exact (L0' _ _ _ Hin).
    - revert Hin. apply not_in_llm, F1l. }
  destruct r1 as [path| |e1].
  2,3: (split; [|split; [|split; [|split]]]);
       [ intros c req reply Hin; exfalso; revert Hin; apply not_in_by, F01c
       | intros req resp err Hin; exfalso; revert Hin; apply not_in_by, F01c
       | intros _; apply F01c
       | intros u Hu; discriminate Hu
       | intros k req err Hin; exfalso; exact (L01 _ _ _ Hin) ].
  apply runs_try.
  eapply runs_conseq;
    [apply runs_and;
       [apply runs_and; [apply main_try_facts | apply main_try_protocol]
       | apply main_try_outcomes]|].
  cbv beta.
  intros r2 ev2 (((E2 & L2 & _) & _ & _ & _ & _ & N2) & A2 & B2 & C2 & D2).
  (* where the events of a whole trace come from *)
  assert (InHttp : forall ev3 c req reply,
             Forall (fun x => only_slack x = true) ev3 -> c <> Slack ->
             In (Http c req reply) (ev0 ++ ev1 ++ ev2 ++ ev3)%list ->
             In (Http c req reply) ev2).
  { intros ev3 c req reply S3 Hc Hin. rewrite !in_app_iff in Hin.
    destruct Hin as [Hin|[Hin|[Hin|Hin]]]; try assumption; exfalso.
    - revert Hin. apply not_in_by, F0c.
    - revert Hin. apply not_in_by, F1c.
    - rewrite Forall_forall in S3. apply S3 in Hin.
      destruct c; try discriminate Hin. apply Hc. reflexivity. }
  assert (NoLlm : forall ev3 k req err,
             Forall (fun x => only_slack x = true) ev3 ->
             ~ In (Llm k req (inl err)) (ev0 ++ ev1 ++ ev2 ++ ev3)%list).
  { intros ev3 k req err S3 Hin. rewrite !in_app_iff in Hin.
    destruct Hin as [Hin|[Hin|[Hin|Hin]]].
    - exact (L0' _ _ _ Hin).
    - revert Hin. apply not_in_llm, F1l.
    - revert Hin. apply not_in_llm, L2.
    - revert Hin. apply not_in_llm.
      eapply Forall_impl; [|exact S3]. apply only_slack_not_llm. }
  destruct r2 as [u| |e2].
  - (* the post is published *)
    split; [|split; [|split; [|split]]].
    + intros c req reply Hin Hc Hacc. exfalso.
      rewrite <- (app_nil_r ev2) in Hin.
      discriminate (A2 c req reply (InHttp [] c req reply (Forall_nil _) Hc Hin)
                      Hc Hacc).
    + intros req resp err Hin Hacc Hjs. exfalso.
      rewrite <- (app_nil_r ev2) in Hin.
      assert (Hin2 : In (Http CreatePost req (inr resp)) ev2)
        by (apply (InHttp [] CreatePost); [constructor | discriminate | exact Hin]).
      discriminate (B2 req resp err Hin2 Hacc Hjs).
    + intros Hno. repeat (apply Forall_app; split); auto.
    + intros u' _.
      destruct (D2 u eq_refl) as (wk & pt & ti & Hw & Hp & Ht & Hlog & Hslack).
      exists post, wk, pt, ti. repeat (split; [assumption|]). split.
      * rewrite !in_app_iff. auto.
      * intros url Hurl Hn. destruct (Hslack url Hurl Hn) as (reply & Hin).
        exists reply. rewrite !in_app_iff. auto.
    + intros k req err Hin. exfalso.
      rewrite <- (app_nil_r ev2) in Hin.
      exact (NoLlm [] k req err (Forall_nil _) Hin).
  - (* [main_try] does not return *)
    exfalso. exact (N2 eq_refl).
  - (* the handler *)
    rewrite (E2 e2 eq_refl). unfold runs.
    destruct (main_except_outcome post e2 ((([] ++ ev0) ++ ev1) ++ ev2)%list week Hweek)
      as (evs & Hrun & S3 & N3 & U3).
    rewrite Hrun. cbn [fst snd].
    assert (S3' : Forall (fun x => only_slack x = true)
                    (Log ERROR ("Failed to post: " ++ exn_str rt e2) :: evs))
      by (constructor; [reflexivity | exact S3]).
    split; [|split; [|split; [|split]]].
    + intros c req reply Hin Hc Hacc. split; [reflexivity|].
      assert (He : e2 = refusal c reply).
      { assert (Hin2 : In (Http c req reply) ev2)
          by (eapply InHttp; [exact S3' | exact Hc | exact Hin]).
        pose proof (A2 c req reply Hin2 Hc Hacc) as H. injection H as H. exact H. }
      rewrite <- He.
      exists post, week. split; [exact Hentry|]. split; [exact Hweek|]. split.
      * rewrite !in_app_iff. right. right. right. left. reflexivity.
      * intros url Hurl Hn. destruct (U3 url Hurl Hn) as (reply' & Hin').
        exists reply'. rewrite !in_app_iff. right. right. right. right. exact Hin'.
    + intros req resp err Hin Hacc Hjs. split; [reflexivity|].
      assert (Hin2 : In (Http CreatePost req (inr resp)) ev2)
        by (eapply InHttp; [exact S3' | discriminate | exact Hin]).
      injection (B2 req resp err Hin2 Hacc Hjs) as ->.
      rewrite !in_app_iff. right. right. right. left. reflexivity.
    + intros Hno. rewrite (N3 Hno).
      repeat (apply Forall_app; split); auto; repeat constructor.
    + intros u Hu. discriminate Hu.
    + intros k req err Hin. exfalso. exact (NoLlm _ k req err S3' Hin).
Qed.

(** X1. The calls of every run follow one fixed order: the language
    model, then the user-info call, the registration of the upload, the
    upload, the publish call, each made only when the one before was
    accepted (200 for the first two LinkedIn calls, 200 or 201 for the
    last two), and the webhook last, after at least the user-info call;
    nothing is called after the webhook or after a failure of the
    model. *)
Theorem run_follows_protocol (args : Args) :
  exists s, protocol Start (snd (run rt cfg w args)) = Some s.
Proof.
  destruct (main_protocol args) as (s & P & _). exists s. exact P.
Qed.

(** X2. No retry: in every run each endpoint, the webhook and the
    language model are called at most once. *)
Theorem each_service_called_at_most_once (args : Args) :
  (forall c,
      (List.length (filter (is_call_by c) (snd (run rt cfg w args))) <= 1)%nat)
  /\ (List.length (filter is_llm (snd (run rt cfg w args))) <= 1)%nat.
Proof.
  destruct (main_protocol args) as (s & P & _). split.
  - intros c. pose proof (protocol_calls_once c _ _ _ P) as H.
    destruct c; exact H.
  - exact (protocol_model_once _ _ _ P).
Qed.

Lemma protocol_lost tr : forall s s',
  protocol s tr = Some s' ->
  s = Failed \/ s = Ended false -> s' = Failed \/ s' = Ended false.
Proof.
  induction tr as [|ev tr IH]; intros s s' H Hs; cbn [protocol] in H.
  - injection H as <-. exact Hs.
  - destruct (advance s ev) as [s1|] eqn:A; [|discriminate].
    apply (IH s1 s' H).
    destruct Hs as [-> | ->];
      destruct ev as [lvl msg | c req reply | k req reply];
      cbn [advance] in A; try (destruct c); try discriminate A;
      injection A as <-; auto.
Qed.

(** A run that reaches [Published] has had its publish call accepted. *)
Lemma protocol_published tr : forall s s',
  protocol s tr = Some s' ->
  s' = Published \/ s' = Ended true ->
  (rank s <= 4)%nat ->
  exists req reply,
    In (Http CreatePost req reply) tr /\ accepted CreatePost reply = true.
Proof.
  induction tr as [|ev tr IH]; intros s s' H Hfin Hr; cbn [protocol] in H.
  - injection H as <-. destruct Hfin as [-> | ->]; cbn in Hr; lia.
  - destruct (advance s ev) as [s1|] eqn:A; [|discriminate].
    destruct (Nat.le_gt_cases (rank s1) 4) as [Hle|Hgt].
    + destruct (IH s1 s' H Hfin Hle) as (req & reply & Hin & Hacc).
      exists req, reply. split; [right; exact Hin | exact Hacc].
    + assert (Lost : s1 = Failed \/ s1 = Ended false -> False).
      { intros Hl. destruct (protocol_lost tr s1 s' H Hl) as [-> | ->];
          destruct Hfin; discriminate. }
      destruct ev as [lvl msg | c req reply | k req reply]; cbn [advance] in A.
      * injection A as <-. lia.
      * destruct c, s; try discriminate A; cbv zeta in A;
          try (cbn in Hr; lia);
          try (injection A as <-; exfalso; apply Lost; auto; fail);
          match type of A with
          | context [accepted ?c ?r] => destruct (accepted c r) eqn:Acc
          end;
          injection A as <-;
          first [ cbn in Hgt; lia
                | exfalso; apply Lost; auto; fail
                | exists req, reply; split; [left; reflexivity | exact Acc] ].
      * destruct s; try discriminate A. destruct reply; injection A as <-.
        -- exfalso. apply Lost. auto.
        -- cbn in Hgt. lia.
Qed.

(** X3. [main] runs to its end only when the post was accepted: the
    exit status is 0, the publish call was answered 200 or 201, the
    success is logged with the week and the type of the entry, and a
    configured webhook gets a POST whose JSON payload has the [text]
    [Posted Week <week> <type>: <title>] after the check mark, with
    [Untitled] for an entry without title. *)
Theorem success_means_published (args : Args) :
  fst (run rt cfg w args) = Ok tt ->
  exit_status (fst (run rt cfg w args)) = 0
  /\ (exists req resp,
         In (Http CreatePost req (inr resp)) (snd (run rt cfg w args))
         /\ (status_code resp = 200 \/ status_code resp = 201))
  /\ exists post week post_type title,
      (exists d cal,
          target_date rt w args = inr d /\ w_calendar w = inr cal
          /\ get_todays_post w cal (Some d) = inr (Some post))
      /\ py_getitem post "week" = inr week
      /\ py_getitem post "post_type" = inr post_type
      /\ py_get post "title" (JStr "Untitled") = inr title
      /\ In (Log INFO ("Successfully posted: Week " ++ py_str rt week ++ " "
                       ++ py_str rt post_type)) (snd (run rt cfg w args))
      /\ forall url,
          SLACK_WEBHOOK_URL cfg = Some url -> url <> EmptyString ->
          exists notice reply,
            In (Http Slack notice reply) (snd (run rt cfg w args))
            /\ notice
               = slack_request url
                   ("Posted Week " ++ py_str rt week ++ " "
                    ++ py_str rt post_type ++ ": " ++ py_str rt title) true
            /\ req_method notice = POST
            /\ req_url notice = JStr url
            /\ req_body notice
               = JsonBody
                   (JDict
                      [("text",
                        JStr ("✅ Posted Week " ++ py_str rt week ++ " "
                              ++ py_str rt post_type ++ ": " ++ py_str rt title));
                       ("username", JStr "Bioscope LinkedIn Bot")]).
Proof.
  intros Hok. split; [rewrite Hok; reflexivity|]. split.
  - destruct (main_protocol args) as (s & P & O & _).
    specialize (O tt Hok).
    destruct (protocol_published _ _ _ P O) as (req & reply & Hin & Hacc);
      [cbn; lia|].
    destruct reply as [err|resp]; [discriminate Hacc|].
    exists req, resp. split; [exact Hin|].
    cbn [accepted] in Hacc. apply orb_true_iff in Hacc.
    destruct Hacc as [H|H]; apply Z.eqb_eq in H; auto.
  - destruct (main_outcomes args) as (_ & _ & _ & D & _).
    destruct (D tt Hok)
      as (post & week & post_type & title & He & Hw & Hp & Ht & Hlog & Hslack).
    exists post, week, post_type, title.
    split; [exact He|]. split; [exact Hw|]. split; [exact Hp|].
    split; [exact Ht|]. split; [exact Hlog|].
    intros url Hurl Hn. destruct (Hslack url Hurl Hn) as (reply & Hin).
    eexists _, reply. split; [exact Hin|].
    split; [reflexivity|]. split; [reflexivity|]. split; reflexivity.
Qed.

(** X4. Whichever LinkedIn call is refused (a transport error, a status
    other than 200 for the user-info call and the registration, other
    than 200 and 201 for the upload and the publish call), the run exits
    with status 1.  What is reported is the error of that very call: the
    transport error, or the exception its caller raises with the status.
    It is logged as [Failed to post: <error>], and a configured webhook
    gets a POST whose JSON payload has the [text]
    [FAILED to post Week <week>: <error>] after the cross mark. *)
Theorem refused_call_fails_the_run
  (args : Args) (c : caller) (req : request) (reply : lib_error + response) :
  In (Http c req reply) (snd (run rt cfg w args)) ->
  c <> Slack ->
  accepted c reply = false ->
  let error :=
    match reply with
    | inl err => err_msg err
    | inr resp =>
        match c with
        | UserInfo => "Failed to get LinkedIn user info: "
        | RegisterUpload => "LinkedIn upload registration failed: "
        | UploadBinary => "LinkedIn image upload failed: "
        | _ => "LinkedIn post creation failed: "
        end ++ str_Z (status_code resp)
    end in
  exit_status (fst (run rt cfg w args)) = 1
  /\ In (Log ERROR ("Failed to post: " ++ error)) (snd (run rt cfg w args))
  /\ exists post week,
      (exists d cal,
          target_date rt w args = inr d /\ w_calendar w = inr cal
          /\ get_todays_post w cal (Some d) = inr (Some post))
      /\ py_getitem post "week" = inr week
      /\ forall url,
          SLACK_WEBHOOK_URL cfg = Some url -> url <> EmptyString ->
          exists notice reply',
            In (Http Slack notice reply') (snd (run rt cfg w args))
            /\ notice
               = slack_request url
                   ("FAILED to post Week " ++ py_str rt week ++ ": " ++ error) false
            /\ req_method notice = POST
            /\ req_url notice = JStr url
            /\ req_body notice
               = JsonBody
                   (JDict
                      [("text",
                        JStr ("❌ FAILED to post Week " ++ py_str rt week
                              ++ ": " ++ error));
                       ("username", JStr "Bioscope LinkedIn Bot")]).
Proof.
  intros Hin Hc Hacc error.
  assert (Herr : exn_str rt (refusal c reply) = error)
    by (subst error; destruct reply as [err|resp]; [reflexivity|];
        destruct c; try reflexivity; exfalso; apply Hc; reflexivity).
  destruct (main_outcomes args) as (A & _).
  destruct (A c req reply Hin Hc Hacc)
    as (Hr & post & week & He & Hw & Hlog & Hslack).
  rewrite Herr in Hlog, Hslack.
  split; [unfold run; rewrite Hr; reflexivity|]. split; [exact Hlog|].
  exists post, week. split; [exact He|]. split; [exact Hw|].
  intros url Hurl Hn. destruct (Hslack url Hurl Hn) as (reply' & Hin').
  eexists _, reply'. split; [exact Hin'|].
  split; [reflexivity|]. split; [reflexivity|]. split; reflexivity.
Qed.

(** X5. A publish call that is accepted (200 or 201) but whose body is
    not JSON makes the run fail all the same: [response.json()] raises
    inside the [try], the run logs [Failed to post: <error>] and exits
    with status 1, although the post was accepted. *)
Theorem unreadable_publish_reply_fails_the_run
  (args : Args) (req : request) (resp : response) (err : lib_error) :
  In (Http CreatePost req (inr resp)) (snd (run rt cfg w args)) ->
  accepted CreatePost (inr resp) = true ->
  resp_json resp = inl err ->
  exit_status (fst (run rt cfg w args)) = 1
  /\ In (Log ERROR ("Failed to post: " ++ err_msg err)) (snd (run rt cfg w args)).
Proof.
  intros Hin Hacc Hjs.
  destruct (main_outcomes args) as (_ & B & _).
  destruct (B req resp err Hin Hacc Hjs) as (Hr & H).
  split; [|exact H]. unfold run. rewrite Hr. reflexivity.
Qed.

(** X6. Without a webhook URL (unset or empty) no run calls the
    webhook, whether it succeeds or fails. *)
Theorem no_webhook_no_notification (args : Args) :
  env_truthy (SLACK_WEBHOOK_URL cfg) = false ->
  Forall (fun ev => is_call_by Slack ev = false) (snd (run rt cfg w args)).
Proof.
  intros Hno. destruct (main_outcomes args) as (_ & _ & C & _). exact (C Hno).
Qed.

(** X7. A failure of the call to the language model is not handled: the
    exception leaves [main], the process exits with status 1, and no HTTP
    call is made, so the webhook is not told. *)
Theorem model_failure_is_not_notified
  (args : Args) (k : option string) (req : llm_request) (err : lib_error) :
  In (Llm k req (inl err)) (snd (run rt cfg w args)) ->
  fst (run rt cfg w args) = Raise (LibraryError err)
  /\ exit_status (fst (run rt cfg w args)) = 1
  /\ Forall (fun ev => is_http ev = false) (snd (run rt cfg w args)).
Proof.
  intros Hin. destruct (main_outcomes args) as (_ & _ & _ & _ & E).
  destruct (E k req err Hin) as (Hr & F).
  split; [exact Hr|]. split; [|exact F]. unfold run in *. rewrite Hr. reflexivity.
Qed.

(** X8. Once the command line is parsed, the exit status is 0 or 1:
    for every value of the flags that [parse_args] returns, [main] ends
    normally, by [sys.exit(1)] or by an exception.  ([parse_args] itself
    exits with the status of [argparse] on a command line it rejects;
    that happens before the flags exist and is no part of this.) *)
Theorem exit_status_is_0_or_1 (args : Args) :
  exit_status (fst (run rt cfg w args)) = 0
  \/ exit_status (fst (run rt cfg w args)) = 1.
Proof.
  destruct (main_protocol args) as (s & _ & _ & X).
  unfold run. destruct (fst (main rt cfg w args [])) as [u| |e] eqn:E;
    [left; reflexivity | left; reflexivity | right].
  destruct e; try reflexivity. exact (X code eq_refl).
Qed.

(** *** The calendar lookup, on any JSON list *)

Lemma find_post_sound s cal : forall post,
  find_post s cal = inr (Some post) ->
  In post cal
  /\ (exists fields,
         post = JDict fields /\ dict_lookup "date" fields = Some (JStr s))
  /\ py_truthy post = true.
Proof.
  induction cal as [|x cal IH]; intros post; cbn [find_post]; [discriminate|].
  destruct (py_get x "date" JNull) as [e|v] eqn:G; [discriminate|].
  destruct (eq_str v s) eqn:E.
  - intros [= <-]. split; [left; reflexivity|].
    destruct x as [| | | | | |fields]; try discriminate G.
    cbn [py_get] in G.
    destruct (dict_lookup "date" fields) as [v'|] eqn:L;
      injection G as <-; [|discriminate E].
    destruct v'; try discriminate E. cbn [eq_str] in E.
    apply String.eqb_eq in E. subst. split; [eauto|].
    destruct fields; [discriminate L | reflexivity].
  - intros H. destruct (IH post H) as (Hin & Hrest). split; [right; exact Hin | exact Hrest].
Qed.

Lemma find_post_prefix s pre rest :
  Forall (fun p => exists fields,
              p = JDict fields /\ dict_lookup "date" fields <> Some (JStr s)) pre ->
  find_post s (pre ++ rest) = find_post s rest.
Proof.
  induction 1 as [|p pre (fields & -> & Hp) _ IH]; [reflexivity|].
  cbn [app find_post py_get].
  destruct (dict_lookup "date" fields) as [v|] eqn:E; cbn [eq_str]; [|exact IH].
  destruct v; try exact IH. cbn [eq_str].
  destruct (String.eqb_spec s0 s) as [->|_]; [contradiction | exact IH].
Qed.

Lemma get_todays_post_truthy cal d post :
  get_todays_post w cal d = inr (Some post) -> py_truthy post = true.
Proof. unfold get_todays_post. intros H. apply (find_post_sound _ _ _ H). Qed.

(** X9. Whatever [get_todays_post] finds is an entry of the calendar, a
    JSON object whose [date] is the ISO string of the target date; such
    an object is never empty, so the test [if not post] of [main] fails
    only on [None]. *)
Theorem get_todays_post_sound (cal : list json) (d : option date) (post : json) :
  get_todays_post w cal d = inr (Some post) ->
  In post cal
  /\ (exists fields,
         post = JDict fields
         /\ dict_lookup "date" fields
            = Some (JStr (isoformat (match d with Some x => x | None => w_today w end))))
  /\ py_truthy post = true.
Proof. unfold get_todays_post. destruct d; apply find_post_sound. Qed.

(** X10. The lookup reads the calendar in order and stops at the first
    match: what follows the match is not looked at and may be anything,
    while a value that is not a JSON object and comes before any match
    makes the lookup raise [AttributeError], the value having no [get]. *)
Theorem get_todays_post_reads_in_order
  (d : date) (pre : list json) (x : json) (suf : list json) :
  Forall (fun p => exists fields,
              p = JDict fields
              /\ dict_lookup "date" fields <> Some (JStr (isoformat d))) pre ->
  (forall fields,
      x = JDict fields ->
      dict_lookup "date" fields = Some (JStr (isoformat d)) ->
      get_todays_post w (pre ++ x :: suf) (Some d) = inr (Some x))
  /\ ((forall fields, x <> JDict fields) ->
      get_todays_post w (pre ++ x :: suf) (Some d)
      = inl (AttributeError (py_type_name x) "get")).
Proof.
  intros Hpre. unfold get_todays_post. rewrite (find_post_prefix _ _ _ Hpre). split.
  - intros fields -> Hx. cbn [find_post py_get]. rewrite Hx. cbn [eq_str].
    rewrite String.eqb_refl. reflexivity.
  - intros Hx. destruct x; try reflexivity. exfalso. exact (Hx d0 eq_refl).
Qed.

(** *** The notifier *)

(** X11. The answer of the webhook is not looked at: whatever its
    status, [send_slack_notification] returns normally and logs
    nothing. *)
Theorem slack_reply_is_ignored
  (message : string) (success : bool) (h : trace) (url : string) (resp : response) :
  SLACK_WEBHOOK_URL cfg = Some url ->
  url <> EmptyString ->
  w_requests w h (slack_request url message success) = inr resp ->
  send_slack_notification rt cfg w message success h
  = (Ok tt, [Http Slack (slack_request url message success) (inr resp)]).
Proof.
  intros Hurl Hn Hreq.
  destruct (send_slack_notification_facts rt cfg w message success h)
    as (Hok & _ & _ & Hsome).
  specialize (Hsome url Hurl Hn). cbv zeta in Hsome. rewrite Hreq in Hsome.
  destruct (send_slack_notification rt cfg w message success h) as [r ev].
  cbn [fst snd] in *. subst. reflexivity.
Qed.

(** *** The gates of [main] *)

(** X12. An empty [--date] is no date: the run is the one of today. *)
Theorem empty_date_means_today (args : Args) :
  arg_date args = Some EmptyString ->
  run rt cfg w args
  = run rt cfg w {| dry_run := dry_run args; arg_date := None; force := force args |}.
Proof.
  intros H. unfold run, main, main_generate, main_image_path, target_date.
  cbn [dry_run arg_date force]. rewrite H. reflexivity.
Qed.

Lemma day_gate d (args : Args) :
  dict_mem (lower (strftime_A d)) POSTING_DAYS || force args = true ->
  negb (dict_mem (lower (strftime_A d)) POSTING_DAYS) && negb (force args) = false.
Proof. destruct (dict_mem _ _), (force args); cbn; congruence. Qed.

(** Follow [main] through its gates, for a day and a configuration that
    pass them. *)
Ltac through_gates Hkey Htok :=
  unfold main, main_generate, load_calendar;
  rewrite Hkey;
  destruct Htok as [Htok | Htok]; rewrite Htok;
  repeat step.

(** X13. On a day that passes the gates, a calendar without an entry
    for the target date ends the run at once: a warning, exit status 0,
    and no call at all. *)
Theorem no_entry_exits_quietly (args : Args) (d : date) (cal : list json) :
  target_date rt w args = inr d ->
  dict_mem (lower (strftime_A d)) POSTING_DAYS || force args = true ->
  dry_run args = true \/ env_truthy (LINKEDIN_ACCESS_TOKEN cfg) = true ->
  env_truthy (ANTHROPIC_API_KEY cfg) = true ->
  w_calendar w = inr cal ->
  get_todays_post w cal (Some d) = inr None ->
  run rt cfg w args
  = (Return,
     [Log INFO ("Running for date: " ++ isoformat d
                ++ " (" ++ lower (strftime_A d) ++ ")");
      Log WARNING ("No post scheduled for " ++ isoformat d)]).
Proof.
  intros Hd Hday Htok Hkey Hcal Hnone.
  pose proof (day_gate d args Hday) as Hgate.
  unfold run. apply runs_eq. through_gates Hkey Htok.
  all: split; reflexivity.
Qed.

(** X14. A [--date] that [date.fromisoformat] rejects, a calendar file
    that cannot be read and a calendar that holds a value without [get]
    before the entry of the day are not handled: the exception leaves
    [main] before any call is made, and nothing is logged about it. *)
Theorem unreadable_inputs_stop_the_run (args : Args) :
  (forall err,
      target_date rt w args = inl err ->
      run rt cfg w args = (Raise (LibraryError err), []))
  /\ (forall d,
         target_date rt w args = inr d ->
         dict_mem (lower (strftime_A d)) POSTING_DAYS || force args = true ->
         dry_run args = true \/ env_truthy (LINKEDIN_ACCESS_TOKEN cfg) = true ->
         env_truthy (ANTHROPIC_API_KEY cfg) = true ->
         (forall err,
             w_calendar w = inl err ->
             run rt cfg w args
             = (Raise (LibraryError err),
                [Log INFO ("Running for date: " ++ isoformat d
                           ++ " (" ++ lower (strftime_A d) ++ ")")]))
         /\ (forall cal e,
                w_calendar w = inr cal ->
                get_todays_post w cal (Some d) = inl e ->
                run rt cfg w args
                = (Raise e,
                   [Log INFO ("Running for date: " ++ isoformat d
                              ++ " (" ++ lower (strftime_A d) ++ ")")]))).
Proof.
  split.
  - intros err Hd. unfold run. apply runs_eq. unfold main, main_generate.
    repeat step. split; reflexivity.
  - intros d Hd Hday Htok Hkey.
    pose proof (day_gate d args Hday) as Hgate. split.
    + intros err Hcal. unfold run. apply runs_eq. through_gates Hkey Htok.
      all: split; reflexivity.
    + intros cal e Hcal Hfind. unfold run. apply runs_eq. through_gates Hkey Htok.
      all: split; reflexivity.
Qed.

Lemma found_entry_missing cal d post key e :
  get_todays_post w cal d = inr (Some post) ->
  py_getitem post key = inl e -> e = KeyError key.
Proof.
  unfold get_todays_post. intros H.
  destruct (find_post_sound _ _ _ H) as (_ & (fields & -> & _) & _).
  cbn [py_getitem]. destruct (dict_lookup key fields); congruence.
Qed.

Lemma found_entry_get cal d post key default :
  get_todays_post w cal d = inr (Some post) ->
  exists v, py_get post key default = inr v.
Proof.
  unfold get_todays_post. intros H.
  destruct (find_post_sound _ _ _ H) as (_ & (fields & -> & _) & _).
  cbn [py_get]. destruct (dict_lookup key fields); eauto.
Qed.

(** X15. An entry of the day that lacks [week], [post_type] or
    [content_data] is not handled either: the [KeyError] of the first
    field that is missed leaves [main], the model is not called, and no
    HTTP call is made. *)
Theorem incomplete_entry_is_uncaught
  (args : Args) (d : date) (cal : list json) (post : json) (key : string) (e : exn) :
  target_date rt w args = inr d ->
  dict_mem (lower (strftime_A d)) POSTING_DAYS || force args = true ->
  dry_run args = true \/ env_truthy (LINKEDIN_ACCESS_TOKEN cfg) = true ->
  env_truthy (ANTHROPIC_API_KEY cfg) = true ->
  w_calendar w = inr cal ->
  get_todays_post w cal (Some d) = inr (Some post) ->
  py_getitem post key = inl e ->
  key = "week"
  \/ (key = "post_type" /\ exists week, py_getitem post "week" = inr week)
  \/ (key = "content_data"
      /\ (exists week, py_getitem post "week" = inr week)
      /\ (exists post_type, py_getitem post "post_type" = inr post_type)
      /\ exists prompt, w_system_prompt w = inr prompt) ->
  e = KeyError key
  /\ fst (run rt cfg w args) = Raise e
  /\ exit_status (fst (run rt cfg w args)) = 1
  /\ Forall (fun ev => is_network_call ev = false) (snd (run rt cfg w args)).
Proof.
  intros Hd Hday Htok Hkey Hcal Hfind Hmiss Hfirst.
  pose proof (day_gate d args Hday) as Hgate.
  pose proof (get_todays_post_truthy _ _ _ Hfind) as Htruthy.
  apply (f_equal negb) in Htruthy. cbn [negb] in Htruthy.
  pose proof (found_entry_missing _ _ _ _ _ Hfind Hmiss) as He.
  destruct (found_entry_get _ _ _ "title" (JStr "Untitled") Hfind) as (title & Htitle).
  split; [exact He|].
  apply (runs_elim (main rt cfg w args) []
           (fun r ev => r = Raise e /\ exit_status r = 1 /\ Forall _ ev)).
  destruct Hfirst as [-> | [(-> & wk & Hwk) | (-> & (wk & Hwk) & (pt & Hpt) & sp & Hsp)]].
  all: through_gates Hkey Htok.
  all: unfold generate_post_text, load_system_prompt.
  all: repeat step.
  all: subst e; trace_tac; reflexivity.
Qed.

(** *** What is logged as an error *)

Lemma no_error_log ev msg :
  Forall (fun e => is_error_log e = false) ev -> ~ In (Log ERROR msg) ev.
Proof.
  intros F H. rewrite Forall_forall in F. apply F in H. discriminate H.
Qed.

Ltac exits_or_quiet_tac :=
  cbn [app]; unfold exits_or_quiet;
  first
    [ left; split; [reflexivity | eexists; in_list]
    | right; split;
      [ intros code Hc; first [discriminate Hc | exit_code_tac]
      | split;
        [ repeat constructor
        | first [ intros _; solve [repeat constructor]
                | intros N; exfalso; apply N; reflexivity ] ] ] ].

Lemma main_generate_logs args h :
  runs (main_generate rt cfg w args) h exits_or_quiet.
Proof.
  unfold main_generate, generate_post_text, load_calendar, load_system_prompt.
  repeat step.
  all: exits_or_quiet_tac.
Qed.

Lemma main_image_path_logs args post h :
  runs (main_image_path rt cfg w args post) h exits_or_quiet.
Proof.
  unfold main_image_path.
  repeat step.
  all: exits_or_quiet_tac.
Qed.

Lemma send_slack_notification_logs msg success h :
  runs (send_slack_notification rt cfg w msg success) h
    (fun _ ev => Forall (fun e => is_error_log e = false) ev).
Proof.
  unfold send_slack_notification.
  repeat step; cbn [app]; repeat constructor.
Qed.

Lemma main_try_logs post post_text image_path h :
  runs (main_try rt cfg w post post_text image_path) h
    (fun r ev => forall u, r = Ok u -> Forall (fun e => is_error_log e = false) ev).
Proof.
  unfold main_try, get_person_urn, upload_image_to_linkedin, create_linkedin_post.
  repeat step.
  all: try (eapply runs_conseq; [apply send_slack_notification_logs|];
            cbv beta; intros ? evs Hs).
  all: cbv beta; intros;
    try match goal with H : Raise _ = Ok _ |- _ => discriminate H end.
  all: cbn [app]; repeat (apply Forall_cons; [reflexivity|]); first [exact Hs | constructor].
Qed.

(** The log and the result of a whole run. *)
Lemma main_logs args :
  runs (main rt cfg w args) []
    (fun r ev =>
       ((exists msg, In (Log ERROR msg) ev) <-> r = Raise (SystemExit 1))
       /\ (forall e, r = Raise e -> is_Exception e = true ->
           Forall (fun x => quiet_event x = true) ev)).
Proof.
  unfold main. apply runs_bind.
  eapply runs_conseq;
    [apply runs_and; [apply main_generate_logs | apply main_generate_facts]|].
  cbv beta.
  intros r0 ev0 ([(-> & Herr) | (X0 & E0 & Q0)] & _ & G0).
  { split; [tauto|]. intros e [= <-]. discriminate. }
  destruct r0 as [[post text]| |e0].
  2,3: split;
       [ split; [intros (msg & Hin); exfalso; exact (no_error_log _ _ E0 Hin)
                | intros H; exfalso;
                  first [discriminate H | injection H as ->; exact (X0 1 eq_refl)]]
       | intros e He _; first [discriminate He | apply Q0; discriminate] ].
  destruct (G0 post text eq_refl) as [(_ & _ & week & _ & _ & _ & Hweek) _].
  clear G0.
  apply runs_bind.
  eapply runs_conseq; [apply main_image_path_logs|]. cbv beta.
  intros r1 ev1 [(-> & msg & Herr) | (X1 & E1 & Q1)].
  { split.
    - split; [reflexivity|]. intros _. exists msg. apply in_or_app. right. exact Herr.
    - intros e [= <-]. discriminate. }
  assert (E01 : Forall (fun e => is_error_log e = false) (ev0 ++ ev1)%list)
    by (apply Forall_app; split; assumption).
  destruct r1 as [path| |e1].
  2,3: split;
       [ split; [intros (msg & Hin); exfalso; exact (no_error_log _ _ E01 Hin)
                | intros H; exfalso;
                  first [discriminate H | injection H as ->; exact (X1 1 eq_refl)]]
       | intros e He _;
         first [ discriminate He
               | apply Forall_app; split;
                 [apply Q0; discriminate | apply Q1; discriminate] ] ].
  apply runs_try.
  eapply runs_conseq;
    [apply runs_and;
       [apply runs_and; [apply main_try_facts | apply main_try_protocol]
       | apply main_try_logs]|].
  cbv beta.
  intros r2 ev2 (((E2 & _) & _ & _ & _ & _ & N2) & L2).
  destruct r2 as [u| |e2].
  - split.
    + split; [|discriminate].
      intros (msg & Hin). exfalso. revert Hin. apply no_error_log.
      repeat (apply Forall_app; split); auto. exact (L2 u eq_refl).
    + intros e He. discriminate He.
  - exfalso. exact (N2 eq_refl).
  - rewrite (E2 e2 eq_refl). unfold runs.
    destruct (main_except_outcome post e2 ((([] ++ ev0) ++ ev1) ++ ev2)%list week Hweek)
      as (evs & Hrun & _).
    rewrite Hrun. cbn [fst snd]. split.
    + split; [reflexivity|]. intros _. eexists.
      rewrite !in_app_iff. right. right. right. left. reflexivity.
    + intros e [= <-]. discriminate.
Qed.

(** X16. An error is logged in exactly the runs that end by
    [sys.exit(1)]: no run logs an error and goes on, and none exits that
    way without a line at level [ERROR]. *)
Theorem error_logged_iff_sys_exit (args : Args) :
  (exists msg, In (Log ERROR msg) (snd (run rt cfg w args)))
  <-> fst (run rt cfg w args) = Raise (SystemExit 1).
Proof. exact (proj1 (main_logs args)). Qed.

(** X17. An exception that leaves [main] (any but [SystemExit]) was
    raised before the [try]: the run has made no HTTP call, so the
    webhook is not told, and has logged only lines at level [INFO]. *)
Theorem uncaught_exception_is_silent (args : Args) (e : exn) :
  fst (run rt cfg w args) = Raise e ->
  is_Exception e = true ->
  exit_status (fst (run rt cfg w args)) = 1
  /\ Forall (fun ev => quiet_event ev = true) (snd (run rt cfg w args)).
Proof.
  intros Hr He. split.
  - rewrite Hr. destruct e; try reflexivity. discriminate He.
  - exact (proj2 (main_logs args) e Hr He).
Qed.

End Protocol.

(** ** The functions of the publishing path, one by one *)

Section Contracts.
Variable rt : Runtime.
Variable cfg : Config.
Variable w : World.

Ltac conj_tac := repeat match goal with |- _ /\ _ => split end.

(** X18. [generate_post_text] calls the model at most once and makes no
    HTTP call.  The call is made with the key of the client, the model
    of [config.py], 1500 tokens at most, the system prompt read from the
    template file and one user message: the text of lines 73 to 88, with
    [post_type] and [week] of the entry as [str] gives them and
    [content_data] as [json.dumps] does.  So it is not made when the
    file or one of the fields is missing.  The result is the text of the
    first block of the answer; an answer without block or whose first
    block is not a text raises. *)
Theorem generate_post_text_contract
  (post : json) (client : option string) (h : trace) :
  runs (generate_post_text rt w post client) h
    (fun r ev =>
       Forall (fun e => is_http e = false) ev
       /\ (List.length (filter is_llm ev) <= 1)%nat
       /\ (forall k req reply,
              In (Llm k req reply) ev ->
              k = client
              /\ model req = CLAUDE_MODEL
              /\ max_tokens req = 1500
              /\ w_system_prompt w = inr (system req)
              /\ (exists post_type week content_data,
                     py_getitem post "post_type" = inr post_type
                     /\ py_getitem post "week" = inr week
                     /\ py_getitem post "content_data" = inr content_data
                     /\ messages req
                        = [("user", user_prompt rt post_type week content_data)]
                     /\ messages req
                        = [("user",
                            "Generate a LinkedIn post for the following content:" ++ nl
                            ++ nl
                            ++ "Post Type: " ++ py_str rt post_type ++ nl
                            ++ "Week: " ++ py_str rt week ++ nl
                            ++ nl
                            ++ "Content Data:" ++ nl
                            ++ rt_json_dumps rt content_data ++ nl
                            ++ nl
                            ++ "Remember to:" ++ nl
                            ++ "1. Start with an engaging hook" ++ nl
                            ++ "2. Use the emoji appropriate for the post type (🧬 for gene, 💊 for intervention, 📊 for topic)" ++ nl
                            ++ "3. Include key information in an accessible way" ++ nl
                            ++ "4. End with the dual CTA for physicians and patients" ++ nl
                            ++ "5. Add relevant hashtags" ++ nl
                            ++ "6. Keep under 3000 characters total" ++ nl)])
              /\ r = match reply with
                     | inl err => Raise (LibraryError err)
                     | inr content =>
                         match first_text content with
                         | inl e => Raise e
                         | inr text => Ok text
                         end
                     end)
       /\ (forall text,
              r = Ok text ->
              exists req content,
                In (Llm client req (inr content)) ev
                /\ first_text content = inr text
                /\ In (Log INFO ("Generated " ++ str_Z (rt_len rt text)
                                 ++ " characters of post text")) ev)
       /\ r <> Return).
Proof.
  unfold generate_post_text, load_system_prompt.
  repeat step.
  all: cbn [app]; conj_tac.
  all: lazymatch goal with
       | |- Forall _ _ => repeat constructor
       | |- (_ <= _)%nat => cbn [filter is_llm List.length]; lia
       | |- forall k req reply, In (Llm k req reply) _ -> _ =>
           intros k0 req0 reply0 Hin; break_in Hin;
           injection Hin as <- <- <-; conj_tac;
           first [ reflexivity
                 | assumption
                 | eexists _, _, _; conj_tac; first [eassumption | reflexivity]
                 | match goal with
                   | H : first_text _ = _ |- _ => rewrite H; reflexivity
                   end ]
       | |- forall text, _ = Ok text -> _ =>
           intros text Hr; first [discriminate Hr | injection Hr as <-];
           eexists _, _; conj_tac; first [eassumption | solve [in_list]]
       | |- _ <> Return => discriminate
       end.
Qed.

(** X19. [upload_image_to_linkedin] registers first: a POST to the
    upload endpoint with the token as bearer credential, whose JSON body
    asks for the feed-share image recipe with the person URN as owner.
    It uploads only after a registration answered 200 whose body has the
    upload URL; the upload is then a PUT to that URL, with the token and
    the content type [image/jpeg], whose body is the bytes of the image
    file.  The file is read after the registration: when it cannot be
    read, the upload is registered and never made.  The result is the
    [asset] of the registration, returned only when the PUT was answered
    200 or 201. *)
Theorem upload_image_to_linkedin_contract
  (image_path : string) (tok : option string) (person_urn : string) (h : trace) :
  runs (upload_image_to_linkedin rt w image_path tok person_urn) h
    (fun r ev =>
       (exists reply rest,
           ev = Log INFO "Registering image upload with LinkedIn..."
                :: Http RegisterUpload (register_request tok person_urn) reply
                :: rest
           /\ Forall (fun e => is_call_by RegisterUpload e = false) rest)
       /\ (req_method (register_request tok person_urn) = POST
           /\ req_url (register_request tok person_urn)
              = JStr "https://api.linkedin.com/v2/assets?action=registerUpload"
           /\ req_headers (register_request tok person_urn)
              = [("Authorization", "Bearer " ++ env_str tok);
                 ("Content-Type", "application/json");
                 ("X-Restli-Protocol-Version", "2.0.0")]
           /\ req_body (register_request tok person_urn)
              = JsonBody
                  (JDict
                     [("registerUploadRequest",
                       JDict
                         [("recipes",
                           JList [JStr "urn:li:digitalmediaRecipe:feedshare-image"]);
                          ("owner", JStr person_urn);
                          ("serviceRelationships",
                           JList
                             [JDict
                                [("relationshipType", JStr "OWNER");
                                 ("identifier",
                                  JStr "urn:li:userGeneratedContent")]])])]))
       /\ (forall req reply,
              In (Http UploadBinary req reply) ev ->
              exists resp data url bytes,
                In (Http RegisterUpload (register_request tok person_urn) (inr resp)) ev
                /\ status_code resp = 200
                /\ resp_json resp = inr data
                /\ py_getitems data
                     ["value"; "uploadMechanism";
                      "com.linkedin.digitalmedia.uploading.MediaUploadHttpRequest";
                      "uploadUrl"] = inr url
                /\ w_read_bytes w image_path = inr bytes
                /\ req = upload_request url tok bytes
                /\ req_method req = PUT
                /\ req_url req = url
                /\ req_headers req
                   = [("Authorization", "Bearer " ++ env_str tok);
                      ("Content-Type", "image/jpeg")]
                /\ req_body req = DataBody bytes)
       /\ (forall asset,
              r = Ok asset ->
              exists resp data req resp',
                In (Http RegisterUpload (register_request tok person_urn) (inr resp)) ev
                /\ resp_json resp = inr data
                /\ py_getitems data ["value"; "asset"] = inr asset
                /\ In (Http UploadBinary req (inr resp')) ev
                /\ (status_code resp' = 200 \/ status_code resp' = 201))
       /\ (forall err,
              w_read_bytes w image_path = inl err ->
              Forall (fun e => is_call_by UploadBinary e = false) ev)
       /\ r <> Return
       /\ (forall e, r = Raise e -> is_Exception e = true)).
Proof.
  unfold upload_image_to_linkedin.
  repeat step.
  all: bool_hyps; cbn [app]; conj_tac.
  all: lazymatch goal with
       | |- exists reply rest, _ =>
           eexists _, _; split; [reflexivity | repeat constructor]
       | |- _ = _ => reflexivity
       | |- forall req reply, In (Http UploadBinary req reply) _ -> _ =>
           intros req0 reply0 Hin; break_in Hin;
           (injection Hin as <- <-;
            eexists _, _, _, _; (split; [solve [in_list]|]); conj_tac;
            first [ eassumption | reflexivity | apply Z.eqb_eq; assumption ])
       | |- forall asset, _ = Ok asset -> _ =>
           intros asset Hr; first [discriminate Hr | injection Hr as <-];
           (eexists _, _, _, _; (split; [solve [in_list]|]); conj_tac;
            first [ eassumption
                  | solve [in_list]
                  | match goal with
                    | H : _ || _ = true |- _ =>
                        apply orb_true_iff in H; destruct H as [H|H];
                        apply Z.eqb_eq in H; auto
                    end ])
       | |- forall err, _ = inl err -> _ =>
           intros err0 Herr;
           first [discriminate Herr | congruence | solve [repeat constructor]]
       | |- _ <> Return => discriminate
       | |- forall e, _ = Raise e -> _ =>
           intros e0 He; first [discriminate He | injection He as <-];
           first [reflexivity | eauto with raises]
       end.
Qed.

(** X20. [create_linkedin_post] makes one call, a POST to the posts
    endpoint whose JSON body names the person as author and the asset as
    media, public and published.  A transport error goes up as it is; a
    status other than 200 and 201 is logged with the body of the answer
    and raised with the status; otherwise the result is the JSON of the
    answer, and an answer that is not JSON raises. *)
Theorem create_linkedin_post_contract
  (text : string) (asset : json) (tok : option string) (person_urn : string)
  (h : trace) :
  let req := post_request text asset tok person_urn in
  let reply := w_requests w (h ++ [Log INFO "Creating LinkedIn post..."])%list req in
  let out := create_linkedin_post w text asset tok person_urn h in
  filter is_network_call (snd out) = [Http CreatePost req reply]
  /\ (req_method req = POST
      /\ req_url req = JStr "https://api.linkedin.com/v2/posts"
      /\ exists payload,
          req_body req = JsonBody payload
          /\ py_getitem payload "author" = inr (JStr person_urn)
          /\ py_getitems payload ["content"; "media"; "id"] = inr asset
          /\ py_getitem payload "visibility" = inr (JStr "PUBLIC")
          /\ py_getitem payload "lifecycleState" = inr (JStr "PUBLISHED"))
  /\ (forall err,
         reply = inl err ->
         out = (Raise (LibraryError err),
                [Log INFO "Creating LinkedIn post..."; Http CreatePost req reply]))
  /\ (forall resp,
         reply = inr resp ->
         status_code resp <> 200 -> status_code resp <> 201 ->
         out = (Raise (Exception ("LinkedIn post creation failed: "
                                  ++ str_Z (status_code resp))),
                [Log INFO "Creating LinkedIn post..."; Http CreatePost req reply;
                 Log ERROR ("Failed to create post: " ++ resp_text resp)]))
  /\ (forall resp,
         reply = inr resp ->
         status_code resp = 200 \/ status_code resp = 201 ->
         out = match resp_json resp with
               | inr result =>
                   (Ok result,
                    [Log INFO "Creating LinkedIn post..."; Http CreatePost req reply;
                     Log INFO "Post created successfully!"])
               | inl err =>
                   (Raise (LibraryError err),
                    [Log INFO "Creating LinkedIn post..."; Http CreatePost req reply])
               end).
Proof.
  cbv zeta. split; [|split; [|split; [|split]]].
  - apply (runs_elim (create_linkedin_post w text asset tok person_urn) h
             (fun _ ev => filter is_network_call ev = _)).
    unfold create_linkedin_post. do 2 step.
    apply runs_bind, runs_requests; intros ? ->; repeat step; reflexivity.
  - split; [reflexivity|]. split; [reflexivity|].
    eexists. split; [reflexivity|]. conj_tac; reflexivity.
  - intros err Herr. apply runs_eq. unfold create_linkedin_post. do 2 step.
    apply runs_bind, runs_requests; rewrite Herr; [discriminate|].
    intros ? [= <-]. split; reflexivity.
  - intros resp Hreq H200 H201. apply runs_eq. unfold create_linkedin_post.
    do 2 step.
    apply runs_bind, runs_requests; rewrite Hreq; [|discriminate].
    intros ? [= <-].
    apply Z.eqb_neq in H200, H201. rewrite H200, H201.
    repeat step. split; reflexivity.
  - intros resp Hreq Hst.
    assert (Hb : (status_code resp =? 200) || (status_code resp =? 201) = true)
      by (apply orb_true_iff; destruct Hst as [H|H]; [left|right];
          apply Z.eqb_eq; exact H).
    destruct (resp_json resp) as [err|result] eqn:Hjs.
    all: apply runs_eq; unfold create_linkedin_post; do 2 step.
    all: apply runs_bind, runs_requests; rewrite Hreq; [|discriminate].
    all: intros ? [= <-]; rewrite Hb, Hjs; repeat step; split; reflexivity.
Qed.

(** X21. An [image_file] that is not a string (a number, a list, an
    object) passes the test [if not image_filename] and fails in the
    path: [TypeError] leaves [main] before the [try], so the run ends
    there with status 1, nothing more is logged and no HTTP call is
    made. *)
Theorem image_file_not_a_string_is_uncaught
  (args : Args) (post : json) (post_text : string) (ev0 : trace) (v : json) :
  dry_run args = false ->
  main_generate rt cfg w args [] = (Ok (post, post_text), ev0) ->
  py_get post "image_file" JNull = inr v ->
  py_truthy v = true ->
  (forall name, v <> JStr name) ->
  run rt cfg w args = (Raise (TypeError "truediv" (py_type_name v)), ev0)
  /\ exit_status (fst (run rt cfg w args)) = 1
  /\ Forall (fun ev => is_http ev = false) (snd (run rt cfg w args)).
Proof.
  intros Hdry G Hget Ht Hns.
  assert (Himg : main_image_path rt cfg w args post ev0
                 = (Raise (TypeError "truediv" (py_type_name v)), [])).
  { apply runs_eq. unfold main_image_path. rewrite Hdry.
    apply (f_equal negb) in Ht. cbn [negb] in Ht.
    repeat step.
    all: first [split; reflexivity | exfalso; eapply Hns; reflexivity]. }
  assert (Hrun : run rt cfg w args
                 = (Raise (TypeError "truediv" (py_type_name v)), ev0)).
  { unfold run, main. cbn [bind Monad_M]. unfold bindM. rewrite G.
    cbn [app]. rewrite Himg. rewrite app_nil_r. reflexivity. }
  split; [exact Hrun|]. rewrite Hrun. cbn [fst snd]. split; [reflexivity|].
  pose proof (main_generate_facts rt cfg w args []) as F. unfold runs in F.
  rewrite G in F. exact (proj1 F).
Qed.

End Contracts.

(** X22. The day gate lets through exactly the runs of a Tuesday, a
    Thursday or a Sunday ([weekday()] 1, 3 or 6): the names [strftime]
    gives, put in lower case, are the keys of [POSTING_DAYS]. *)
Theorem posting_days_are_tuesday_thursday_sunday (d : date) :
  dict_mem (lower (strftime_A d)) POSTING_DAYS = true
  <-> weekday d = 1 \/ weekday d = 3 \/ weekday d = 6.
Proof.
  rewrite posting_day_by_weekday, !orb_true_iff, !Z.eqb_eq. tauto.
Qed.

Lemma bind_ext {A B} (m : M A) (k k' : A -> M B) h :
  (forall a ev, m h = (Ok a, ev) -> k a (h ++ ev)%list = k' a (h ++ ev)%list) ->
  bind m k h = bind m k' h.
Proof.
  intros H. cbn [bind Monad_M]. unfold bindM.
  destruct (m h) as [[a| |e] ev]; try reflexivity.
  rewrite (H a ev eq_refl). reflexivity.
Qed.

Section Flags.
Variable rt : Runtime.
Variable cfg : Config.
Variable w : World.

(** X23. [--force] only opens the day gate: on a Tuesday, a Thursday or
    a Sunday the run is the same with and without it. *)
Theorem force_is_idle_on_posting_days (args : Args) (d : date) :
  target_date rt w args = inr d ->
  dict_mem (lower (strftime_A d)) POSTING_DAYS = true ->
  run rt cfg w args
  = run rt cfg w {| dry_run := dry_run args; arg_date := arg_date args;
                    force := negb (force args) |}.
Proof.
  intros Hd Hday. unfold run, main.
  assert (G : main_generate rt cfg w args []
              = main_generate rt cfg w
                  {| dry_run := dry_run args; arg_date := arg_date args;
                     force := negb (force args) |} []).
  { unfold main_generate.
    change (target_date rt w {| dry_run := dry_run args; arg_date := arg_date args;
                                force := negb (force args) |})
      with (target_date rt w args).
    cbn [dry_run arg_date force].
    apply bind_ext. intros a ev Hm. rewrite Hd in Hm. injection Hm as <- <-.
    apply bind_ext. intros _ ev _. rewrite Hday. reflexivity. }
  cbn [bind Monad_M]. unfold bindM at 1 3. rewrite <- G.
  destruct (main_generate rt cfg w args []) as [[[post text]| |e] ev]; reflexivity.
Qed.

End Flags.

(** ** Concrete runs *)

Import Scenario.

Example sunday_is_a_posting_day :
  lower (strftime_A sunday) = "sunday"
  /\ dict_mem (lower (strftime_A sunday)) POSTING_DAYS = true.
Proof. split; reflexivity. Qed.

Example monday_is_not_a_posting_day :
  isoformat (mkdate 2024 6 3) = "2024-06-03"
  /\ lower (strftime_A (mkdate 2024 6 3)) = "monday"
  /\ dict_mem (lower (strftime_A (mkdate 2024 6 3))) POSTING_DAYS = false.
Proof. repeat split; reflexivity. Qed.

(** The run of the scenario succeeds: four LinkedIn calls, in order,
    and the webhook. *)
Example scenario_posts :
  fst (run runtime cfg w_fine live) = Ok tt
  /\ map (fun ev => match ev with
                    | Http c _ _ => Some c
                    | _ => None
                    end)
         (filter is_http (snd (run runtime cfg w_fine live)))
     = [Some UserInfo; Some RegisterUpload; Some UploadBinary; Some CreatePost;
        Some Slack].
Proof. split; vm_compute; reflexivity. Qed.

(** C1: the identity call answers 401; the run ends with the failure
    logged, the webhook called with week 3 and the text of the exception,
    and status 1. *)
Lemma publish_failures_reported_witness :
  let ev0 := snd (main_generate runtime cfg w_refused live []) in
  let ev1 := snd (main_try runtime cfg w_refused entry_sunday generated
                    "/app/content/images/w3.jpg" ev0) in
  let e := Exception "Failed to get LinkedIn user info: 401" in
  exists week,
    py_getitem entry_sunday "week" = inr week
    /\ let failure := Log ERROR ("Failed to post: " ++ exn_str runtime e) in
       let message :=
         "FAILED to post Week " ++ py_str runtime week ++ ": " ++ exn_str runtime e in
       run runtime cfg w_refused live
       = (Raise (SystemExit 1),
          (ev0 ++ [] ++ ev1
           ++ failure
              :: snd (send_slack_notification runtime cfg w_refused message false
                        (ev0 ++ [] ++ ev1 ++ [failure])))%list)
       /\ exit_status (fst (run runtime cfg w_refused live)) = 1.
Proof.
  cbv zeta.
  refine (proj2 (publish_failures_reported runtime cfg w_refused live
                   entry_sunday generated _ _ _)
            "/app/content/images/w3.jpg" [] _ _ _ _);
    vm_compute; reflexivity.
Defined.

(** C1, as first stated: the entry for Tuesday names no image.  The text
    is generated, the run is not a dry run, a webhook is configured, the
    run fails with status 1, and no call to the webhook is made. *)
Lemma image_validation_failure_not_notified :
  let a := args false (Some "2024-06-04") false in
  (exists ev0,
      main_generate runtime cfg w_fine a [] = (Ok (entry_tuesday, generated), ev0))
  /\ dry_run a = false
  /\ py_get entry_tuesday "image_file" JNull = inr JNull
  /\ SLACK_WEBHOOK_URL cfg = Some webhook
  /\ exit_status (fst (run runtime cfg w_fine a)) = 1
  /\ ~ (exists req reply, In (Http Slack req reply) (snd (run runtime cfg w_fine a))).
Proof.
  cbv zeta. repeat split; try reflexivity.
  - eexists. vm_compute. reflexivity.
  - intros (req & reply & H). vm_compute in H.
    repeat (destruct H as [H|H]; [discriminate H|]). exact H.
Qed.

(** C2: the registration answers 500. *)
Lemma registration_failure_stops_the_run_witness :
  Forall (fun ev => is_call_by CreatePost ev = false)
    (snd (run runtime cfg w_unregistered live))
  /\ exit_status (fst (run runtime cfg w_unregistered live)) = 1
  /\ exists notice reply,
      In (Http Slack notice reply) (snd (run runtime cfg w_unregistered live))
      /\ req_method notice = POST
      /\ req_url notice = JStr webhook
      /\ req_body notice
         = JsonBody
             (JDict
                [("text",
                  JStr "❌ FAILED to post Week 3: LinkedIn upload registration failed: 500");
                 ("username", JStr "Bioscope LinkedIn Bot")]).
Proof.
  destruct (registration_failure_stops_the_run runtime cfg w_unregistered live
              (register_request token "urn:li:person:abc123")
              {| status_code := 500; resp_text := "boom"; resp_json := inr JNull |})
    as (H1 & H2 & d & cal & post & week & Hd & Hcal & Hfound & Hweek & Hw).
  - vm_compute. in_list.
  - discriminate.
  - split; [exact H1|]. split; [exact H2|].
    destruct (Hw webhook eq_refl) as (notice & reply & Hin & Hn & Hm & Hu & Hb);
      [discriminate|].
    exists notice, reply. split; [exact Hin|]. split; [exact Hm|].
    split; [exact Hu|]. rewrite Hb.
    injection Hd as <-. injection Hcal as <-. injection Hfound as <-.
    injection Hweek as <-. reflexivity.
Defined.

(** C3: Monday 2024-06-03 is not a posting day. *)
Lemma unscheduled_day_exits_quietly_witness :
  let a := args false (Some "2024-06-03") false in
  fst (run runtime cfg w_fine a) = Return
  /\ exit_status (fst (run runtime cfg w_fine a)) = 0
  /\ Forall (fun ev => is_network_call ev = false) (snd (run runtime cfg w_fine a)).
Proof.
  cbv zeta.
  apply (unscheduled_day_exits_quietly runtime cfg w_fine _ (mkdate 2024 6 3));
    reflexivity.
Defined.

(** C4: a dry run on the Sunday of the scenario. *)
Lemma dry_run_stops_before_posting_witness :
  let a := args true None false in
  Forall (fun ev => is_http ev = false) (snd (run runtime cfg w_fine a))
  /\ run runtime cfg w_fine a
     = (Return,
        (snd (main_generate runtime cfg w_fine a [])
         ++ [Log INFO "DRY RUN - Not posting to LinkedIn"])%list).
Proof.
  cbv zeta.
  destruct (dry_run_stops_before_posting runtime cfg w_fine (args true None false)
              eq_refl) as [H1 H2].
  split; [exact H1|].
  apply (H2 entry_sunday generated). vm_compute. reflexivity.
Defined.

(** C5: the entry for Tuesday is found after the one for Sunday. *)
Lemma get_todays_post_first_match_witness :
  get_todays_post w_fine calendar (Some (mkdate 2024 6 4)) = inr (Some entry_tuesday)
  /\ get_todays_post w_fine calendar (Some (mkdate 2024 6 3)) = inr None.
Proof.
  split.
  - apply (proj1 (get_todays_post_first_match w_fine
                    [fields_sunday; fields_tuesday] (mkdate 2024 6 4))
             [fields_sunday] fields_tuesday []).
    + reflexivity.
    + reflexivity.
    + repeat constructor. discriminate.
  - apply (proj1 (proj2 (get_todays_post_first_match w_fine
                           [fields_sunday; fields_tuesday] (mkdate 2024 6 3)))).
    repeat constructor; discriminate.
Defined.

(** C6: no language-model key on a posting day. *)
Lemma credentials_checked_before_any_call_witness :
  let c := config None token None in
  exit_status (fst (run runtime c w_fine live)) = 1
  /\ Forall (fun ev => is_network_call ev = false) (snd (run runtime c w_fine live)).
Proof.
  cbv zeta.
  apply (proj1 (credentials_checked_before_any_call runtime (config None token None)
                  w_fine live sunday eq_refl eq_refl)).
  left. reflexivity.
Defined.

(** C7: the identity call of the scenario. *)
Lemma get_person_urn_contract_witness :
  fst (get_person_urn runtime w_fine token []) = Ok "urn:li:person:abc123"
  /\ get_person_urn runtime w_refused token []
     = (Raise (Exception "Failed to get LinkedIn user info: 401"),
        [Http UserInfo (userinfo_request token) (reply 401 "token expired" JNull);
         Log ERROR "Failed to get user info: token expired"]).
Proof.
  split.
  - apply (proj2 (proj2 (get_person_urn_contract runtime w_fine token []))
             {| status_code := 200; resp_text := "{}"; resp_json := inr userinfo_body |}
             [("sub", JStr "abc123"); ("name", JStr "Don")] (JStr "abc123"));
      reflexivity.
  - apply (proj1 (proj2 (get_person_urn_contract runtime w_refused token []))
             {| status_code := 401; resp_text := "token expired";
                resp_json := inr JNull |}).
    + reflexivity.
    + discriminate.
Defined.

(** C7, as first stated: the identity call answers 401 with the body
    [token expired]; no exception is raised whose text has both the
    status code and the body. *)
Lemma get_person_urn_error_lacks_body :
  ~ (exists e ev,
        get_person_urn runtime w_refused token [] = (Raise e, ev)
        /\ contains "401" (exn_str runtime e) = true
        /\ contains "token expired" (exn_str runtime e) = true).
Proof.
  intros (e & ev & H & _ & Hbody). vm_compute in H.
  injection H as <- _. vm_compute in Hbody. discriminate Hbody.
Qed.

(** C8: the webhook is down. *)
Lemma send_slack_notification_never_raises_witness :
  let w := world sunday userinfo_ok register_ok true in
  let out := send_slack_notification runtime cfg w "Posted" true [] in
  fst out = Ok tt
  /\ snd out
     = [Http Slack (slack_request webhook "Posted" true)
          (inl {| err_class := "ConnectionError"; err_msg := "connection refused" |});
        Log WARNING "Failed to send Slack notification: connection refused"].
Proof.
  cbv zeta.
  destruct (send_slack_notification_never_raises runtime cfg
              (world sunday userinfo_ok register_ok true) "Posted" true [])
    as (H1 & _ & H3).
  split; [exact H1|].
  apply (H3 webhook); [reflexivity | discriminate | reflexivity].
Defined.

(** C9: in the run of the scenario the text of the model is the
    commentary of the post. *)
Lemma post_text_published_verbatim_witness :
  exists text payload,
    first_text [TextBlock generated] = inr text
    /\ req_body (post_request generated (JStr "urn:li:digitalmediaAsset:A1")
                   token "urn:li:person:abc123") = JsonBody payload
    /\ py_getitem payload "commentary" = inr (JStr text).
Proof.
  apply (proj2 (proj2 (post_text_published_verbatim runtime cfg w_fine))
           live api_key
           {| model := CLAUDE_MODEL;
              max_tokens := 1500;
              system := "You write LinkedIn posts.";
              messages := [("user", user_prompt runtime (JStr "gene") (JInt 3) (JDict []))] |}
           [TextBlock generated]
           (post_request generated (JStr "urn:li:digitalmediaAsset:A1")
              token "urn:li:person:abc123")
           (reply 201 "{}" (JDict [("id", JStr "urn:li:share:S1")])));
    vm_compute; in_list.
Defined.

(** C10: the user-info object has no [sub]. *)
Lemma get_person_urn_missing_sub_witness :
  let w := world sunday (reply 200 "{}" (JDict [("name", JStr "Don")])) register_ok false in
  (exists id_text,
      fst (get_person_urn runtime w token []) = Ok ("urn:li:person:" ++ id_text))
  /\ fst (get_person_urn runtime w token []) = Ok "urn:li:person:None".
Proof.
  cbv zeta.
  destruct (get_person_urn_missing_sub runtime
              (world sunday (reply 200 "{}" (JDict [("name", JStr "Don")]))
                 register_ok false)
              token []
              {| status_code := 200; resp_text := "{}";
                 resp_json := inr (JDict [("name", JStr "Don")]) |}
              [("name", JStr "Don")] eq_refl eq_refl eq_refl) as [H1 H2].
  split; [exact H1 | exact (H2 eq_refl)].
Defined.

(** ** More concrete runs *)

Import Cases.

(** X3: the run of the scenario. *)
Lemma success_means_published_witness :
  exit_status (fst (run runtime cfg w_fine live)) = 0
  /\ (exists req resp,
         In (Http CreatePost req (inr resp)) (snd (run runtime cfg w_fine live))
         /\ (status_code resp = 200 \/ status_code resp = 201))
  /\ exists notice reply,
      In (Http Slack notice reply) (snd (run runtime cfg w_fine live))
      /\ req_method notice = POST
      /\ req_url notice = JStr webhook
      /\ req_body notice
         = JsonBody
             (JDict [("text", JStr "✅ Posted Week 3 gene: BRCA1");
                     ("username", JStr "Bioscope LinkedIn Bot")]).
Proof.
  destruct (success_means_published runtime cfg w_fine live)
    as (H1 & H2 & post & week & post_type & title
        & (d & cal & Hd & Hcal & Hfound) & Hweek & Htype & Htitle & _ & Hw).
  - vm_compute. reflexivity.
  - split; [exact H1|]. split; [exact H2|].
    destruct (Hw webhook eq_refl) as (notice & reply & Hin & _ & Hm & Hu & Hb);
      [discriminate|].
    exists notice, reply. split; [exact Hin|]. split; [exact Hm|].
    split; [exact Hu|]. rewrite Hb.
    injection Hd as <-. injection Hcal as <-. injection Hfound as <-.
    injection Hweek as <-. injection Htype as <-. injection Htitle as <-.
    reflexivity.
Defined.

(** X4: the identity call answers 401. *)
Lemma refused_call_fails_the_run_witness :
  exit_status (fst (run runtime cfg w_refused live)) = 1
  /\ In (Log ERROR "Failed to post: Failed to get LinkedIn user info: 401")
       (snd (run runtime cfg w_refused live))
  /\ exists notice reply,
      In (Http Slack notice reply) (snd (run runtime cfg w_refused live))
      /\ req_method notice = POST
      /\ req_url notice = JStr webhook
      /\ req_body notice
         = JsonBody
             (JDict
                [("text",
                  JStr "❌ FAILED to post Week 3: Failed to get LinkedIn user info: 401");
                 ("username", JStr "Bioscope LinkedIn Bot")]).
Proof.
  destruct (refused_call_fails_the_run runtime cfg w_refused live UserInfo
              (userinfo_request token) (reply 401 "token expired" JNull))
    as (H1 & H2 & post & week & (d & cal & Hd & Hcal & Hfound) & Hweek & Hw).
  - vm_compute. in_list.
  - discriminate.
  - reflexivity.
  - split; [exact H1|]. split; [exact H2|].
    destruct (Hw webhook eq_refl) as (notice & reply' & Hin & _ & Hm & Hu & Hb);
      [discriminate|].
    exists notice, reply'. split; [exact Hin|]. split; [exact Hm|].
    split; [exact Hu|]. rewrite Hb.
    injection Hd as <-. injection Hcal as <-. injection Hfound as <-.
    injection Hweek as <-. reflexivity.
Defined.

(** X5: the posts endpoint answers 201 with a page. *)
Lemma unreadable_publish_reply_fails_the_run_witness :
  exit_status (fst (run runtime cfg w_unreadable live)) = 1
  /\ In (Log ERROR "Failed to post: Expecting value: line 1 column 1 (char 0)")
       (snd (run runtime cfg w_unreadable live)).
Proof.
  apply (unreadable_publish_reply_fails_the_run runtime cfg w_unreadable live
           publish_request accepted_unreadable not_json).
  - vm_compute. in_list.
  - reflexivity.
  - reflexivity.
Defined.

(** X6: the scenario without a webhook. *)
Lemma no_webhook_no_notification_witness :
  Forall (fun ev => is_call_by Slack ev = false)
    (snd (run runtime (config api_key token None) w_fine live)).
Proof.
  apply (no_webhook_no_notification runtime (config api_key token None) w_fine live).
  reflexivity.
Defined.

(** X7: the model is overloaded. *)
Lemma model_failure_is_not_notified_witness :
  fst (run runtime cfg w_model_down live) = Raise (LibraryError overloaded)
  /\ exit_status (fst (run runtime cfg w_model_down live)) = 1
  /\ Forall (fun ev => is_http ev = false) (snd (run runtime cfg w_model_down live)).
Proof.
  apply (model_failure_is_not_notified runtime cfg w_model_down live
           api_key model_request overloaded).
  vm_compute. in_list.
Defined.

(** X9: the entry of the Sunday. *)
Lemma get_todays_post_sound_witness :
  In entry_sunday calendar
  /\ (exists fields,
         entry_sunday = JDict fields
         /\ dict_lookup "date" fields = Some (JStr (isoformat sunday)))
  /\ py_truthy entry_sunday = true.
Proof.
  apply (get_todays_post_sound w_fine calendar (Some sunday) entry_sunday).
  reflexivity.
Defined.

(** X10: a [null] after the entry of the Tuesday is not looked at; before
    it, it stops the lookup. *)
Lemma get_todays_post_reads_in_order_witness :
  get_todays_post w_fine [entry_sunday; entry_tuesday; JNull] (Some (mkdate 2024 6 4))
  = inr (Some entry_tuesday)
  /\ get_todays_post w_fine [entry_sunday; JNull; entry_tuesday] (Some (mkdate 2024 6 4))
     = inl (AttributeError "NoneType" "get").
Proof.
  assert (Hpre : Forall (fun p => exists fields,
                            p = JDict fields
                            /\ dict_lookup "date" fields
                               <> Some (JStr (isoformat (mkdate 2024 6 4))))
                   [entry_sunday]).
  { repeat constructor. exists fields_sunday. split; [reflexivity | discriminate]. }
  split.
  - apply (proj1 (get_todays_post_reads_in_order w_fine (mkdate 2024 6 4)
                    [entry_sunday] entry_tuesday [JNull] Hpre) fields_tuesday);
      reflexivity.
  - apply (proj2 (get_todays_post_reads_in_order w_fine (mkdate 2024 6 4)
                    [entry_sunday] JNull [entry_tuesday] Hpre)).
    discriminate.
Defined.

(** X11: the webhook answers 500. *)
Lemma slack_reply_is_ignored_witness :
  send_slack_notification runtime cfg w_slack_500 "Posted" true []
  = (Ok tt,
     [Http Slack (slack_request webhook "Posted" true) (reply 500 "oops" JNull)]).
Proof.
  apply (slack_reply_is_ignored runtime cfg w_slack_500 "Posted" true [] webhook).
  - reflexivity.
  - discriminate.
  - reflexivity.
Defined.

(** X12: [--date] with nothing after it. *)
Lemma empty_date_means_today_witness :
  run runtime cfg w_fine (args false (Some EmptyString) false)
  = run runtime cfg w_fine live.
Proof.
  apply (empty_date_means_today runtime cfg w_fine (args false (Some EmptyString) false)).
  reflexivity.
Defined.

(** X13: Thursday 2024-06-06 has no entry. *)
Lemma no_entry_exits_quietly_witness :
  run runtime cfg w_fine thursday_args
  = (Return,
     [Log INFO "Running for date: 2024-06-06 (thursday)";
      Log WARNING "No post scheduled for 2024-06-06"]).
Proof.
  apply (no_entry_exits_quietly runtime cfg w_fine thursday_args
           (mkdate 2024 6 6) calendar).
  - reflexivity.
  - reflexivity.
  - right. reflexivity.
  - reflexivity.
  - reflexivity.
  - reflexivity.
Defined.

(** X14: a date that is none, and a calendar that is not there. *)
Lemma unreadable_inputs_stop_the_run_witness :
  run runtime cfg w_fine (args false (Some "tomorrow") false)
  = (Raise (LibraryError {| err_class := "ValueError";
                            err_msg := "Invalid isoformat string: 'tomorrow'" |}),
     [])
  /\ run runtime cfg w_no_calendar live
     = (Raise (LibraryError no_calendar),
        [Log INFO "Running for date: 2024-06-02 (sunday)"]).
Proof.
  split.
  - apply (proj1 (unreadable_inputs_stop_the_run runtime cfg w_fine
                    (args false (Some "tomorrow") false))).
    reflexivity.
  - apply (proj1 (proj2 (unreadable_inputs_stop_the_run runtime cfg w_no_calendar live)
                    sunday eq_refl eq_refl (or_intror eq_refl) eq_refl)).
    reflexivity.
Defined.

(** X15: the entry of the day has no [week]. *)
Lemma incomplete_entry_is_uncaught_witness :
  fst (run runtime cfg w_no_week live) = Raise (KeyError "week")
  /\ exit_status (fst (run runtime cfg w_no_week live)) = 1
  /\ Forall (fun ev => is_network_call ev = false) (snd (run runtime cfg w_no_week live)).
Proof.
  apply (incomplete_entry_is_uncaught runtime cfg w_no_week live sunday
           [entry_no_week] entry_no_week "week" (KeyError "week")).
  - reflexivity.
  - reflexivity.
  - right. reflexivity.
  - reflexivity.
  - reflexivity.
  - reflexivity.
  - reflexivity.
  - left. reflexivity.
Defined.

(** X17: the model is overloaded; the error leaves [main]. *)
Lemma uncaught_exception_is_silent_witness :
  exit_status (fst (run runtime cfg w_model_down live)) = 1
  /\ Forall (fun ev => quiet_event ev = true) (snd (run runtime cfg w_model_down live)).
Proof.
  apply (uncaught_exception_is_silent runtime cfg w_model_down live
           (LibraryError overloaded)).
  - vm_compute. reflexivity.
  - reflexivity.
Defined.

(** X21: the entry of the day names image number 7. *)
Lemma image_file_not_a_string_is_uncaught_witness :
  run runtime cfg w_numbered_image live
  = (Raise (TypeError "truediv" "int"),
     snd (main_generate runtime cfg w_numbered_image live []))
  /\ exit_status (fst (run runtime cfg w_numbered_image live)) = 1
  /\ Forall (fun ev => is_http ev = false) (snd (run runtime cfg w_numbered_image live)).
Proof.
  apply (image_file_not_a_string_is_uncaught runtime cfg w_numbered_image live
           entry_numbered_image generated
           (snd (main_generate runtime cfg w_numbered_image live [])) (JInt 7)).
  - reflexivity.
  - vm_compute. reflexivity.
  - reflexivity.
  - reflexivity.
  - discriminate.
Defined.

(** X23: the Sunday of the scenario, forced. *)
Lemma force_is_idle_on_posting_days_witness :
  run runtime cfg w_fine live = run runtime cfg w_fine (args false None true).
Proof.
  apply (force_is_idle_on_posting_days runtime cfg w_fine live sunday);
    reflexivity.
Defined.
